(** * YobitApi: the request signer of [Yobit.js], embedded and verified

    The development follows the one source file of the repository,
    [src/Yobit.js]: a class [Yobit] with four static public accessors
    ([info], [ticker], [depth], [trades]), a constructor, the private
    request builder [_request] and ten wrappers around it.

    - [Js] holds the fragment of JavaScript the class relies on: primitive
      values, truthiness, [+], [toLowerCase], [Array.prototype.join],
      objects as insertion-ordered association lists.
    - [Querystring] is Node's [querystring.stringify] and [CryptoJS] is
      HMAC-SHA512 with hex output, the two library calls of [_request].
    - [Yobit] is the class itself, in a small state-and-exception monad
      that records what the code does in a trace.
    - [Async] splits [_request] at its [await] and runs calls under an
      explicit schedule; [Stateful] does so for a policy that keeps a
      memory between its invocations.

    Strings are ASCII byte strings.  Numbers are the integer-valued doubles
    (and NaN); fractions and the infinities are left out. *)

From Stdlib Require Import ZArith List String Ascii Bool Lia DecimalString Sorted.
Import ListNotations.

Open Scope string_scope.
Open Scope Z_scope.

(* ================================================================== *)
(** ** The JavaScript fragment *)

Module Js.

(** Primitive values.  [Num n] is the double whose value is the integer
    [n]; it is well formed when [to_double n = n] (below). *)
Inductive prim : Type :=
| Undefined
| Null
| Bool (b : bool)
| Num (n : Z)
| NaN
| Str (s : string).

(** A value held by an object property: a primitive or an array of
    primitives. *)
Inductive value : Type :=
| P (p : prim)
| Arr (l : list prim).

(** Exceptions and results of evaluation. *)
Inductive exn : Type :=
| TypeError
| Rejected (reason : prim).

Inductive outcome (A : Type) : Type :=
| Return (a : A)
| Throw (e : exn).
Arguments Return {A} a.
Arguments Throw {A} e.

(** Something that may be called: [Fn f] is a function of one argument
    (its result is what [await] gets out of the call, or the exception
    it throws or rejects with); [NotFn v] is any other value.  [Fn f]
    answers alike whenever it is given the same argument; a function with a
    memory of its own is a sequence of such answers (module [Stateful]). *)
Inductive callable : Type :=
| NotFn (v : prim)
| Fn (f : prim -> outcome prim).

(** Round-to-nearest, ties-to-even, of an integer to a double: the
    identity below 2^53, 53 significant bits above (overflow to infinity,
    at 2^1024, is not modelled). *)
Definition to_double (z : Z) : Z :=
  let a := Z.abs z in
  if a <? 2 ^ 53 then z
  else
    let e := Z.log2 a - 52 in
    let q := Z.shiftr a e in
    let r := Z.land a (Z.ones e) in
    let half := Z.shiftl 1 (e - 1) in
    let q' := if (half <? r) || ((r =? half) && Z.odd q) then q + 1 else q in
    Z.sgn z * Z.shiftl q' e.

(** [Number.prototype.toString] on an integer: its decimal digits.  Exact
    for [|n| <= 2^53]. *)
Definition num_to_string (n : Z) : string :=
  NilZero.string_of_int (Z.to_int n).

(** ToBoolean. *)
Definition truthy (p : prim) : bool :=
  match p with
  | Undefined | Null | NaN => false
  | Bool b => b
  | Num n => negb (n =? 0)
  | Str s => negb (String.eqb s "")
  end.

Definition truthy_callable (c : callable) : bool :=
  match c with
  | NotFn v => truthy v
  | Fn _ => true
  end.

(** ToString. *)
Definition to_string (p : prim) : string :=
  match p with
  | Undefined => "undefined"
  | Null => "null"
  | Bool true => "true"
  | Bool false => "false"
  | Num n => num_to_string n
  | NaN => "NaN"
  | Str s => s
  end.

(** ToNumber on the non-string primitives; [None] is NaN. *)
Definition to_number (p : prim) : option Z :=
  match p with
  | Undefined | NaN | Str _ => None
  | Null => Some 0
  | Bool true => Some 1
  | Bool false => Some 0
  | Num n => Some n
  end.

Definition is_string (p : prim) : bool :=
  match p with Str _ => true | _ => false end.

(** The binary [+]: concatenation as soon as one side is a string, the
    rounded sum of the two numbers otherwise. *)
Definition add (a b : prim) : prim :=
  if is_string a || is_string b then Str (to_string a ++ to_string b)
  else
    match to_number a, to_number b with
    | Some x, Some y => Num (to_double (x + y))
    | _, _ => NaN
    end.

(** [String.prototype.toLowerCase] on ASCII. *)
Definition lower_ascii (c : ascii) : ascii :=
  let n := N_of_ascii c in
  if ((65 <=? n) && (n <=? 90))%N then ascii_of_N (n + 32) else c.

Fixpoint toLowerCase (s : string) : string :=
  match s with
  | EmptyString => EmptyString
  | String c r => String (lower_ascii c) (toLowerCase r)
  end.

(** [Array.prototype.join]: [undefined] and [null] elements give the
    empty string. *)
Definition join_elem (p : prim) : string :=
  match p with
  | Undefined | Null => ""
  | _ => to_string p
  end.

Definition join (sep : string) (l : list prim) : string :=
  String.concat sep (map join_elem l).

(** Objects with string keys, in insertion order.  (Keys that are array
    indices, which JavaScript enumerates first, do not occur in the
    class.) *)
Definition obj (V : Type) : Type := list (string * V).

Fixpoint obj_get {V} (k : string) (o : obj V) : option V :=
  match o with
  | [] => None
  | (k', v) :: r => if String.eqb k k' then Some v else obj_get k r
  end.

(** [o[k] = v]: an existing key keeps its place, a new one goes last. *)
Fixpoint obj_set {V} (k : string) (v : V) (o : obj V) : obj V :=
  match o with
  | [] => [(k, v)]
  | (k', v') :: r =>
      if String.eqb k k' then (k', v) :: r else (k', v') :: obj_set k v r
  end.

Definition obj_has {V} (k : string) (o : obj V) : bool :=
  match obj_get k o with Some _ => true | None => false end.

End Js.

(* ================================================================== *)
(** ** Node's [querystring] *)

Module Querystring.
Import Js.

(** Characters [querystring.escape] leaves alone:
    [A-Z a-z 0-9 - _ . ! ~ * ' ( )]. *)
Definition no_escape (c : ascii) : bool :=
  let n := N_of_ascii c in
  (((65 <=? n) && (n <=? 90)) || ((97 <=? n) && (n <=? 122))
   || ((48 <=? n) && (n <=? 57))
   || (n =? 45) || (n =? 95) || (n =? 46) || (n =? 33) || (n =? 126)
   || (n =? 42) || (n =? 39) || (n =? 40) || (n =? 41))%N.

Definition hex_digit_upper (n : N) : ascii :=
  if (n <? 10)%N then ascii_of_N (48 + n) else ascii_of_N (55 + n).

Fixpoint escape (s : string) : string :=
  match s with
  | EmptyString => EmptyString
  | String c r =>
      if no_escape c then String c (escape r)
      else
        let n := N_of_ascii c in
        String "%" (String (hex_digit_upper (n / 16))
                      (String (hex_digit_upper (n mod 16)) (escape r)))
  end.

(** [stringifyPrimitive]: strings as they are, finite numbers and
    booleans printed, everything else the empty string. *)
Definition stringifyPrimitive (p : prim) : string :=
  match p with
  | Str s => s
  | Num n => num_to_string n
  | Bool true => "true"
  | Bool false => "false"
  | Undefined | Null | NaN => ""
  end.

Definition nonempty (s : string) : bool := negb (String.eqb s "").

(** The inner loop over the elements of an array value. *)
Fixpoint stringify_array (ks : string) (l : list prim) (first : bool)
         (fields : string) : string :=
  match l with
  | [] => fields
  | p :: r =>
      let fields := if first then fields else fields ++ "&" in
      stringify_array ks r false (fields ++ ks ++ escape (stringifyPrimitive p))
  end.

(** The loop over the keys, with its accumulator [fields]. *)
Fixpoint stringify_loop (o : obj value) (fields : string) : string :=
  match o with
  | [] => fields
  | (k, v) :: r =>
      let ks := escape k ++ "=" in
      match v with
      | Arr [] => stringify_loop r fields
      | Arr l =>
          let fields := if nonempty fields then fields ++ "&" else fields in
          stringify_loop r (stringify_array ks l true fields)
      | P p =>
          let fields := if nonempty fields then fields ++ "&" else fields in
          stringify_loop r (fields ++ ks ++ escape (stringifyPrimitive p))
      end
  end.

(** [querystring.stringify(obj)], [obj] possibly [undefined]. *)
Definition stringify (o : option (obj value)) : string :=
  match o with
  | None => ""
  | Some o => stringify_loop o ""
  end.

End Querystring.

(* ================================================================== *)
(** ** [CryptoJS.HmacSHA512]

    The digest the [crypto-js] package computes: HMAC (RFC 2104) over
    SHA-512 (FIPS 180-4), on the bytes of the two strings, printed by the
    [Hex] encoder.  Words are 64-bit, held in [Z] and cut back with
    [w64] after every sum. *)

Module CryptoJS.
Local Open Scope list_scope.

Definition w64 (x : Z) : Z := Z.land x (Z.ones 64).

Definition rotr (n x : Z) : Z :=
  Z.lor (Z.shiftr x n) (w64 (Z.shiftl x (64 - n))).

Definition Ch (x y z : Z) : Z :=
  Z.lxor (Z.land x y) (Z.land (Z.lxor x (Z.ones 64)) z).

Definition Maj (x y z : Z) : Z :=
  Z.lxor (Z.lxor (Z.land x y) (Z.land x z)) (Z.land y z).

Definition Sigma0 (x : Z) : Z := Z.lxor (Z.lxor (rotr 28 x) (rotr 34 x)) (rotr 39 x).
Definition Sigma1 (x : Z) : Z := Z.lxor (Z.lxor (rotr 14 x) (rotr 18 x)) (rotr 41 x).
Definition sigma0 (x : Z) : Z := Z.lxor (Z.lxor (rotr 1 x) (rotr 8 x)) (Z.shiftr x 7).
Definition sigma1 (x : Z) : Z := Z.lxor (Z.lxor (rotr 19 x) (rotr 61 x)) (Z.shiftr x 6).

Definition K : list Z :=
  [ 0x428a2f98d728ae22; 0x7137449123ef65cd; 0xb5c0fbcfec4d3b2f; 0xe9b5dba58189dbbc;
    0x3956c25bf348b538; 0x59f111f1b605d019; 0x923f82a4af194f9b; 0xab1c5ed5da6d8118;
    0xd807aa98a3030242; 0x12835b0145706fbe; 0x243185be4ee4b28c; 0x550c7dc3d5ffb4e2;
    0x72be5d74f27b896f; 0x80deb1fe3b1696b1; 0x9bdc06a725c71235; 0xc19bf174cf692694;
    0xe49b69c19ef14ad2; 0xefbe4786384f25e3; 0x0fc19dc68b8cd5b5; 0x240ca1cc77ac9c65;
    0x2de92c6f592b0275; 0x4a7484aa6ea6e483; 0x5cb0a9dcbd41fbd4; 0x76f988da831153b5;
    0x983e5152ee66dfab; 0xa831c66d2db43210; 0xb00327c898fb213f; 0xbf597fc7beef0ee4;
    0xc6e00bf33da88fc2; 0xd5a79147930aa725; 0x06ca6351e003826f; 0x142929670a0e6e70;
    0x27b70a8546d22ffc; 0x2e1b21385c26c926; 0x4d2c6dfc5ac42aed; 0x53380d139d95b3df;
    0x650a73548baf63de; 0x766a0abb3c77b2a8; 0x81c2c92e47edaee6; 0x92722c851482353b;
    0xa2bfe8a14cf10364; 0xa81a664bbc423001; 0xc24b8b70d0f89791; 0xc76c51a30654be30;
    0xd192e819d6ef5218; 0xd69906245565a910; 0xf40e35855771202a; 0x106aa07032bbd1b8;
    0x19a4c116b8d2d0c8; 0x1e376c085141ab53; 0x2748774cdf8eeb99; 0x34b0bcb5e19b48a8;
    0x391c0cb3c5c95a63; 0x4ed8aa4ae3418acb; 0x5b9cca4f7763e373; 0x682e6ff3d6b2b8a3;
    0x748f82ee5defb2fc; 0x78a5636f43172f60; 0x84c87814a1f0ab72; 0x8cc702081a6439ec;
    0x90befffa23631e28; 0xa4506cebde82bde9; 0xbef9a3f7b2c67915; 0xc67178f2e372532b;
    0xca273eceea26619c; 0xd186b8c721c0c207; 0xeada7dd6cde0eb1e; 0xf57d4f7fee6ed178;
    0x06f067aa72176fba; 0x0a637dc5a2c898a6; 0x113f9804bef90dae; 0x1b710b35131c471b;
    0x28db77f523047d84; 0x32caab7b40c72493; 0x3c9ebe0a15c9bebc; 0x431d67c49c100d4c;
    0x4cc5d4becb3e42b6; 0x597f299cfc657e2a; 0x5fcb6fab3ad6faec; 0x6c44198c4a475817 ].
Definition H0 : list Z :=
  [ 0x6a09e667f3bcc908; 0xbb67ae8584caa73b; 0x3c6ef372fe94f82b; 0xa54ff53a5f1d36f1;
    0x510e527fade682d1; 0x9b05688c2b3e6c1f; 0x1f83d9abfb41bd6b; 0x5be0cd19137e2179 ].

Definition bytes_of_string (s : string) : list Z :=
  map (fun c => Z.of_N (N_of_ascii c)) (list_ascii_of_string s).

(** Big-endian bytes of [x], [n] of them. *)
Fixpoint be_bytes (n : nat) (x : Z) : list Z :=
  match n with
  | O => []
  | S m => be_bytes m (Z.shiftr x 8) ++ [Z.land x 255]
  end.

Definition be_word (bs : list Z) : Z :=
  fold_left (fun acc b => Z.lor (Z.shiftl acc 8) b) bs 0.

(** The message, the bit 1, zeros up to 112 modulo 128, the length in
    bits on 128 bits. *)
Definition pad (msg : list Z) : list Z :=
  let len := Z.of_nat (List.length msg) in
  msg ++ [128] ++ repeat 0 (Z.to_nat ((111 - len) mod 128))
      ++ be_bytes 16 (8 * len).

(** Cut into pieces of [n] elements ([fuel] bounds their number). *)
Fixpoint chunks {A} (fuel n : nat) (l : list A) : list (list A) :=
  match fuel with
  | O => []
  | S f =>
      match l with
      | [] => []
      | _ => firstn n l :: chunks f n (skipn n l)
      end
  end.

Definition block_words (block : list Z) : list Z :=
  map be_word (chunks 16 8 block).

(** The message schedule, most recent word first: [ws] holds
    W(t-1), W(t-2), ... and the next word is
    sigma1 W(t-2) + W(t-7) + sigma0 W(t-15) + W(t-16). *)
Fixpoint schedule (n : nat) (ws : list Z) : list Z :=
  match n with
  | O => ws
  | S m =>
      let w := w64 (sigma1 (nth 1 ws 0) + nth 6 ws 0
                    + sigma0 (nth 14 ws 0) + nth 15 ws 0) in
      schedule m (w :: ws)
  end.

Record regs : Type := Regs { ra : Z; rb : Z; rc : Z; rd : Z;
                             re : Z; rf : Z; rg : Z; rh : Z }.

Definition round (s : regs) (kw : Z * Z) : regs :=
  let '(k, w) := kw in
  let t1 := w64 (rh s + Sigma1 (re s) + Ch (re s) (rf s) (rg s) + k + w) in
  let t2 := w64 (Sigma0 (ra s) + Maj (ra s) (rb s) (rc s)) in
  Regs (w64 (t1 + t2)) (ra s) (rb s) (rc s) (w64 (rd s + t1)) (re s) (rf s) (rg s).

Definition regs_of (h : list Z) : regs :=
  Regs (nth 0 h 0) (nth 1 h 0) (nth 2 h 0) (nth 3 h 0)
       (nth 4 h 0) (nth 5 h 0) (nth 6 h 0) (nth 7 h 0).

Definition list_of (s : regs) : list Z :=
  [ra s; rb s; rc s; rd s; re s; rf s; rg s; rh s].

Definition compress (h : list Z) (block : list Z) : list Z :=
  let ws := rev (schedule 64 (rev (block_words block))) in
  let s := fold_left round (combine K ws) (regs_of h) in
  map (fun p => w64 (fst p + snd p)) (combine h (list_of s)).

Definition sha512 (msg : list Z) : list Z :=
  let padded := pad msg in
  let blocks := chunks (List.length padded) 128 padded in
  flat_map (be_bytes 8) (fold_left compress blocks H0).

(** HMAC with the 128-byte block of SHA-512: a longer key is hashed
    first, a shorter one is filled with zeros. *)
Definition hmac_sha512 (key msg : list Z) : list Z :=
  let key := if (128 <? Z.of_nat (List.length key)) then sha512 key else key in
  let key := key ++ repeat 0 (128 - List.length key) in
  let ipad := map (fun b => Z.lxor b 54) key in
  let opad := map (fun b => Z.lxor b 92) key in
  sha512 (opad ++ sha512 (ipad ++ msg)).

Definition hex_digit (n : Z) : ascii :=
  if n <? 10 then ascii_of_N (Z.to_N (48 + n)) else ascii_of_N (Z.to_N (87 + n)).

Fixpoint hex (bs : list Z) : string :=
  match bs with
  | [] => EmptyString
  | b :: r => String (hex_digit (Z.shiftr b 4)) (String (hex_digit (Z.land b 15)) (hex r))
  end.

(** [CryptoJS.HmacSHA512(message, secret).toString(encoder)]; without an
    encoder [toString] falls back on [Hex]. *)
Definition HmacSHA512_toString (message secret : string) : string :=
  hex (hmac_sha512 (bytes_of_string secret) (bytes_of_string message)).

End CryptoJS.

(* ================================================================== *)
(** ** The class [Yobit] *)

Module Yobit.
Import Js.

Definition apiHost : string := "https://yobit.net".
Definition publicApiSufix : string := "api/3".
Definition privateApiSufix : string := "tapi".
Definition publicApiUrl : string := apiHost ++ "/" ++ publicApiSufix.
Definition privateApiUrl : string := apiHost ++ "/" ++ privateApiSufix.

(** The fields of an instance ([this]). *)
Record instance : Type := Instance {
  key : string;
  secret : string;
  proxyUrl : prim;
  nonce : prim;
  nonceUpdateFn : callable
}.

(** The configuration object handed to [rp].  An absent [form], [headers]
    or [qs] is [None], an absent [proxy] is [Undefined], an absent
    [json] is [false]. *)
Record Cfg : Type := MkCfg {
  uri : string;
  method : option string;
  form : option (obj value);
  headers : option (obj string);
  qs : option (obj value);
  proxy : prim;
  json : bool
}.

Definition with_form (c : Cfg) (f : obj value) : Cfg :=
  MkCfg (uri c) (method c) (Some f) (headers c) (qs c) (proxy c) (json c).
Definition with_headers (c : Cfg) (h : obj string) : Cfg :=
  MkCfg (uri c) (method c) (form c) (Some h) (qs c) (proxy c) (json c).
Definition with_proxy (c : Cfg) (p : prim) : Cfg :=
  MkCfg (uri c) (method c) (form c) (headers c) (qs c) p (json c).
Definition with_json (c : Cfg) (j : bool) : Cfg :=
  MkCfg (uri c) (method c) (form c) (headers c) (qs c) (proxy c) j.

Definition form_of (c : Cfg) : obj value :=
  match form c with Some f => f | None => [] end.
Definition headers_of (c : Cfg) : obj string :=
  match headers c with Some h => h | None => [] end.

(** An argument that is destructured: [undefined] (also when left out),
    [null], or an object. *)
Inductive destructured (A : Type) : Type :=
| ArgUndefined
| ArgNull
| ArgObject (o : A).
Arguments ArgUndefined {A}.
Arguments ArgNull {A}.
Arguments ArgObject {A} o.

(** The constructor's [options]; a missing property is [Undefined]. *)
Record options : Type := Options {
  opt_nonce : prim;
  opt_nonceUpdateFn : callable;
  opt_proxyUrl : prim
}.

Definition empty_options : options :=
  Options Undefined (NotFn Undefined) Undefined.

(** [(nonce) => nonce + 1] *)
Definition default_nonceUpdateFn : prim -> outcome prim :=
  fun nonce => Return (add nonce (Num 1)).

(** [Math.floor(+new Date()/1000)], [now] being the clock in
    milliseconds. *)
Definition timestamp (now : Z) : prim := Num (now / 1000).

Definition constructor (key secret : string) (options : destructured options)
           (now : Z) : outcome instance :=
  match options with
  | ArgUndefined | ArgNull => Throw TypeError
  | ArgObject o =>
      let nonce := opt_nonce o in
      let nonceUpdateFn := opt_nonceUpdateFn o in
      let proxyUrl := opt_proxyUrl o in
      Return {|
        key := key;
        secret := secret;
        proxyUrl := proxyUrl;
        nonce := if truthy nonce then nonce else timestamp now;
        nonceUpdateFn := if truthy_callable nonceUpdateFn then nonceUpdateFn
                         else Fn default_nonceUpdateFn
      |}
  end.

Definition _publicUrl (method : string) : string :=
  publicApiUrl ++ "/" ++ method.

(** A method call on something that has no such method is a TypeError. *)
Definition _formatPairs (pairs : value) : outcome string :=
  match pairs with
  | Arr l => Return (toLowerCase (join "-" l))
  | P (Str s) => Return (toLowerCase s)
  | P _ => Throw TypeError
  end.

Definition _sign (message secret : string) : string :=
  CryptoJS.HmacSHA512_toString message secret.

(** *** Public accessors: the configuration each hands to [rp] *)

Definition public_cfg (uri : string) (qs : option (obj value)) : Cfg :=
  MkCfg uri None None None qs Undefined true.

Definition info : outcome Cfg :=
  Return (public_cfg (_publicUrl "info") None).

Definition ticker (pairs : value) : outcome Cfg :=
  match _formatPairs pairs with
  | Throw e => Throw e
  | Return p => Return (public_cfg (_publicUrl ("ticker/" ++ p)) None)
  end.

Definition depth (pairs : value) (limit : value) : outcome Cfg :=
  let limit := match limit with P Undefined => P (Num 100) | _ => limit end in
  match _formatPairs pairs with
  | Throw e => Throw e
  | Return p =>
      Return (public_cfg (_publicUrl ("depth/" ++ p)) (Some [("limit", limit)]))
  end.

Definition trades (pairs : value) : outcome Cfg :=
  match _formatPairs pairs with
  | Throw e => Throw e
  | Return p => Return (public_cfg (_publicUrl ("trades/" ++ p)) None)
  end.

(** *** Instance methods

    [M A] is a computation on [this] that returns or throws and leaves a
    trace of what it did. *)

Inductive event : Type :=
| NonceUpdateCalled (arg : prim)
| NonceStored (v : prim)
| ConsoleLog (args : list prim)
| Signed (message secret : string)
| Rp (cfg : Cfg).

Definition M (A : Type) : Type :=
  instance -> outcome A * instance * list event.

Definition ret {A} (a : A) : M A := fun self => (Return a, self, []).

Definition bind {A B} (m : M A) (k : A -> M B) : M B :=
  fun self =>
    match m self with
    | (Return a, self', t) =>
        let '(r, self'', t') := k a self' in (r, self'', (t ++ t')%list)
    | (Throw e, self', t) => (Throw e, self', t)
    end.

Notation "x <- m ;; k" := (bind m (fun x => k))
  (at level 61, m at next level, right associativity).
Notation "m ;; k" := (bind m (fun _ => k))
  (at level 61, right associativity).

Definition this : M instance := fun self => (Return self, self, []).
Definition emit (e : event) : M unit := fun self => (Return tt, self, [e]).
Definition lift {A} (r : outcome A) : M A := fun self => (r, self, []).

(** [this.nonce = v] *)
Definition store_nonce (v : prim) : M unit :=
  fun self =>
    (Return tt,
     Instance (key self) (secret self) (proxyUrl self) v (nonceUpdateFn self),
     [NonceStored v]).

(** [c(arg)], not yet awaited. *)
Definition call (c : callable) (arg : prim) : M (outcome prim) :=
  match c with
  | NotFn _ => ret (Throw TypeError)
  | Fn f => emit (NonceUpdateCalled arg) ;; ret (f arg)
  end.

(** [_request] down to the operand of its [await]: the copies of [cfg]
    and of its headers, and the call [this.nonceUpdateFn(this.nonce)]. *)
Definition _request_before_await (cfg : Cfg) : M (Cfg * outcome prim) :=
  let cfg := with_headers cfg (headers_of cfg) in
  self <- this ;;
  awaited <- call (nonceUpdateFn self) (nonce self) ;;
  ret (cfg, awaited).

(** [_request] from the moment its [await] is resumed.  The form is the
    caller's own object, which every wrapper builds afresh. *)
Definition _request_after_await (st : Cfg * outcome prim) : M Cfg :=
  let '(cfg, awaited) := st in
  v <- lift awaited ;;
  store_nonce v ;;
  self <- this ;;
  emit (ConsoleLog [Str "------------------NONCE IS "; nonce self;
                    Str (Querystring.stringify (form cfg))]) ;;
  let cfg := with_form cfg (form_of cfg) in
  let cfg := with_form cfg (obj_set "nonce" (P (nonce self)) (form_of cfg)) in
  let cfg := with_headers cfg (obj_set "key" (key self) (headers_of cfg)) in
  let message := Querystring.stringify (form cfg) in
  emit (Signed message (secret self)) ;;
  let cfg := with_headers cfg
               (obj_set "sign" (_sign message (secret self)) (headers_of cfg)) in
  let cfg := if negb (truthy (proxy cfg)) then with_proxy cfg (proxyUrl self)
             else cfg in
  let cfg := with_json cfg true in
  emit (Rp cfg) ;;
  ret cfg.

Definition _request (cfg : Cfg) : M Cfg :=
  st <- _request_before_await cfg ;;
  _request_after_await st.

(** The object literal every wrapper builds. *)
Definition private_cfg (form : obj value) : Cfg :=
  MkCfg privateApiUrl (Some "POST") (Some form) None None Undefined false.

Definition getInfo : M Cfg :=
  _request (private_cfg [("method", P (Str "getInfo"))]).

Definition Trade (pair type rate amount : value) : M Cfg :=
  p <- lift (_formatPairs pair) ;;
  _request (private_cfg [("method", P (Str "Trade"));
                         ("pair", P (Str p));
                         ("type", type);
                         ("rate", rate);
                         ("amount", amount)]).

Definition ActiveOrders (pair : value) : M Cfg :=
  p <- lift (_formatPairs pair) ;;
  _request (private_cfg [("method", P (Str "ActiveOrders"));
                         ("pair", P (Str p))]).

Definition OrderInfo (order_id : value) : M Cfg :=
  _request (private_cfg [("method", P (Str "OrderInfo"));
                         ("order_id", order_id)]).

Definition CancelOrder (order_id : value) : M Cfg :=
  _request (private_cfg [("method", P (Str "CancelOrder"));
                         ("order_id", order_id)]).

(** The [options] of [TradeHistory]. *)
Record history : Type := History {
  opt_from : value;
  opt_count : value;
  opt_from_id : value;
  opt_end_id : value;
  opt_order : value;
  opt_since : value;
  opt_end : value;
  opt_pair : value
}.

Definition empty_history : history :=
  let u := P Undefined in History u u u u u u u u.

Definition TradeHistory (options : destructured history) : M Cfg :=
  let options := match options with
                 | ArgUndefined => ArgObject empty_history
                 | _ => options
                 end in
  match options with
  | ArgUndefined | ArgNull => lift (Throw TypeError)
  | ArgObject o =>
      _request (private_cfg [("method", P (Str "TradeHistory"));
                             ("from", opt_from o);
                             ("count", opt_count o);
                             ("from_id", opt_from_id o);
                             ("end_id", opt_end_id o);
                             ("order", opt_order o);
                             ("since", opt_since o);
                             ("end", opt_end o);
                             ("pair", opt_pair o)])
  end.

Definition GetDepositAddress (coinName need_new : value) : M Cfg :=
  let need_new := match need_new with P Undefined => P (Num 0) | _ => need_new end in
  _request (private_cfg [("method", P (Str "GetDepositAddress"));
                         ("coinName", coinName);
                         ("need_new", need_new)]).

Definition WithdrawCoinsToAddress (coinName amount address : value) : M Cfg :=
  _request (private_cfg [("method", P (Str "WithdrawCoinsToAddress"));
                         ("coinName", coinName);
                         ("amount", amount);
                         ("address", address)]).

Definition CreateYobicode (currency amount : value) : M Cfg :=
  _request (private_cfg [("method", P (Str "CreateYobicode"));
                         ("currency", currency);
                         ("amount", amount)]).

Definition RedeemYobicode (coupon : value) : M Cfg :=
  _request (private_cfg [("method", P (Str "RedeemYobicode"));
                         ("coupon", coupon)]).

(** Calls made one after the other, each awaited before the next. *)
Fixpoint in_sequence (calls : list (M Cfg)) : M (list Cfg) :=
  match calls with
  | [] => ret []
  | c :: r =>
      x <- c ;;
      xs <- in_sequence r ;;
      ret (x :: xs)
  end.

(** What a request carries: [body] is the string [_request] builds from the
    form and signs. *)
Definition body (c : Cfg) : string := Querystring.stringify (form c).
Definition body_nonce (c : Cfg) : option value := obj_get "nonce" (form_of c).
Definition header (name : string) (c : Cfg) : option string :=
  obj_get name (headers_of c).

End Yobit.

(* ================================================================== *)
(** ** Calls in flight

    [_request] is an [async] function with one [await].  A call runs
    [_request_before_await] when it is made and [_request_after_await] when
    it is resumed; between the two any other call may be made or resumed.
    Nothing else in the class orders two calls. *)

Module Async.
Import Js Yobit.

Record world : Type := World {
  self : instance;
  pending : list (nat * (Cfg * outcome prim));
  settled : list (nat * outcome Cfg);
  trace : list event
}.

Inductive action : Type :=
| Start (id : nat) (cfg : Cfg)
| Resume (id : nat).

(** The first pending call named [id], and the others. *)
Fixpoint take {A} (id : nat) (l : list (nat * A)) : option (A * list (nat * A)) :=
  match l with
  | [] => None
  | (i, a) :: r =>
      if Nat.eqb i id then Some (a, r)
      else match take id r with
           | Some (x, r') => Some (x, (i, a) :: r')
           | None => None
           end
  end.

Definition step (w : world) (a : action) : world :=
  match a with
  | Start id cfg =>
      match _request_before_await cfg (self w) with
      | (Return st, self', t) =>
          World self' (pending w ++ [(id, st)]) (settled w) (trace w ++ t)
      | (Throw e, self', t) =>
          World self' (pending w) (settled w ++ [(id, Throw e)]) (trace w ++ t)
      end
  | Resume id =>
      match take id (pending w) with
      | None => w
      | Some (st, rest) =>
          let '(r, self', t) := _request_after_await st (self w) in
          World self' rest (settled w ++ [(id, r)]) (trace w ++ t)
      end
  end.

Definition run (schedule : list action) (w : world) : world :=
  fold_left step schedule w.

Definition initial (self : instance) : world := World self [] [] [].

(** Two calls made back to back, as in [c.f(); c.g();], then resumed in
    the order they were made; and two calls of which the second is made
    once the first has been resumed, as in [await c.f(); await c.g();]. *)
Definition back_to_back (c1 c2 : Cfg) : list action :=
  [Start 1 c1; Start 2 c2; Resume 1; Resume 2].

Definition one_after_the_other (c1 c2 : Cfg) : list action :=
  [Start 1 c1; Resume 1; Start 2 c2; Resume 2].

(** The requests handed to [rp], in order. *)
Definition transmitted (w : world) : list Cfg :=
  flat_map (fun e => match e with Rp c => [c] | _ => [] end) (trace w).

End Async.

(* ================================================================== *)
(** ** Properties stated over the embedding *)

Module Props.
Import Js Yobit.

(** The [key=value] pieces one property contributes to the string
    [querystring.stringify] builds. *)
Definition pieces (kv : string * value) : list string :=
  let ks := Querystring.escape (fst kv) ++ "=" in
  match snd kv with
  | P p => [ks ++ Querystring.escape (Querystring.stringifyPrimitive p)]
  | Arr l => map (fun p => ks ++ Querystring.escape (Querystring.stringifyPrimitive p)) l
  end.

(** A form without its [undefined] properties. *)
Definition is_undefined (v : value) : bool :=
  match v with P Undefined => true | _ => false end.

Definition omit_undefined (f : obj value) : obj value :=
  filter (fun kv => negb (is_undefined (snd kv))) f.

Definition qs_of (c : Cfg) : obj value :=
  match qs c with Some q => q | None => [] end.

(** A request carries credentials or a nonce. *)
Definition carries_credentials (c : Cfg) : bool :=
  obj_has "key" (headers_of c) || obj_has "sign" (headers_of c)
  || obj_has "nonce" (form_of c) || obj_has "nonce" (qs_of c).

(** The numbers among the nonces of a list of requests. *)
Definition num_nonce (n : Z) : option value := Some (P (Num n)).

(** [this] with another nonce and nothing else changed. *)
Definition with_nonce (self : instance) (v : prim) : instance :=
  Instance (key self) (secret self) (proxyUrl self) v (nonceUpdateFn self).

(** The configuration [_request] hands to [rp] when the policy gave [v]. *)
Definition signed_cfg (self : instance) (v : prim) (cfg : Cfg) : Cfg :=
  let f := obj_set "nonce" (P v) (form_of cfg) in
  let message := Querystring.stringify (Some f) in
  MkCfg (uri cfg) (method cfg) (Some f)
        (Some (obj_set "sign" (_sign message (secret self))
                 (obj_set "key" (key self) (headers_of cfg))))
        (qs cfg)
        (if negb (truthy (proxy cfg)) then proxyUrl self else proxy cfg)
        true.

Definition is_upper (c : ascii) : bool :=
  let n := N_of_ascii c in ((65 <=? n) && (n <=? 90))%N.

(** Adding one piece to what [querystring.stringify] has built so far. *)
Definition add_piece (fields piece : string) : string :=
  if Querystring.nonempty fields then fields ++ "&" ++ piece else piece.

(** [n], [n + 1], ... : [len] consecutive integers. *)
Fixpoint count_from (n : Z) (len : nat) : list Z :=
  match len with
  | O => []
  | S m => n :: count_from (n + 1) m
  end.

(** The two calls of the cancel-order wrapper used below, as the
    configurations [CancelOrder(42)] and [CancelOrder(43)] give to
    [_request]. *)
Definition cancel_cfg (order_id : Z) : Cfg :=
  private_cfg [("method", P (Str "CancelOrder")); ("order_id", P (Num order_id))].

(** A client whose nonce is 2^53:
    [new Yobit("k", "s", {nonce: 9007199254740992})]. *)
Definition client_2_53 : instance :=
  Instance "k" "s" Undefined (Num 9007199254740992) (Fn default_nonceUpdateFn).

(** The client of the end-to-end scenario, as its constructor leaves it:
    [new Yobit("k", "s", {nonce: 1000})]. *)
Definition client_1000 : instance :=
  Instance "k" "s" Undefined (Num 1000) (Fn default_nonceUpdateFn).

End Props.

(* ================================================================== *)
(** ** The instance methods as one family *)

Module Usage.
Import Js Yobit.

(** A call of one of the ten wrappers, with its arguments. *)
Inductive invocation : Type :=
| Call_getInfo
| Call_Trade (pair type rate amount : value)
| Call_ActiveOrders (pair : value)
| Call_OrderInfo (order_id : value)
| Call_CancelOrder (order_id : value)
| Call_TradeHistory (options : destructured history)
| Call_GetDepositAddress (coinName need_new : value)
| Call_WithdrawCoinsToAddress (coinName amount address : value)
| Call_CreateYobicode (currency amount : value)
| Call_RedeemYobicode (coupon : value).

Definition invoke (i : invocation) : M Cfg :=
  match i with
  | Call_getInfo => getInfo
  | Call_Trade pairs type rate amount => Trade pairs type rate amount
  | Call_ActiveOrders pairs => ActiveOrders pairs
  | Call_OrderInfo order_id => OrderInfo order_id
  | Call_CancelOrder order_id => CancelOrder order_id
  | Call_TradeHistory options => TradeHistory options
  | Call_GetDepositAddress coinName need_new => GetDepositAddress coinName need_new
  | Call_WithdrawCoinsToAddress coinName amount address =>
      WithdrawCoinsToAddress coinName amount address
  | Call_CreateYobicode currency amount => CreateYobicode currency amount
  | Call_RedeemYobicode coupon => RedeemYobicode coupon
  end.

(** The [method] literal of each wrapper. *)
Definition method_name (i : invocation) : string :=
  match i with
  | Call_getInfo => "getInfo"
  | Call_Trade _ _ _ _ => "Trade"
  | Call_ActiveOrders _ => "ActiveOrders"
  | Call_OrderInfo _ => "OrderInfo"
  | Call_CancelOrder _ => "CancelOrder"
  | Call_TradeHistory _ => "TradeHistory"
  | Call_GetDepositAddress _ _ => "GetDepositAddress"
  | Call_WithdrawCoinsToAddress _ _ _ => "WithdrawCoinsToAddress"
  | Call_CreateYobicode _ _ => "CreateYobicode"
  | Call_RedeemYobicode _ => "RedeemYobicode"
  end.

(** How many times a character occurs in a string. *)
Fixpoint count_char (c : ascii) (s : string) : nat :=
  match s with
  | EmptyString => O
  | String x r => ((if Ascii.eqb x c then 1 else 0) + count_char c r)%nat
  end.

(** [g n], [g (g n)], ... : the first [len] iterates of [g] from [n]. *)
Fixpoint iterates (g : prim -> prim) (n : prim) (len : nat) : list prim :=
  match len with
  | O => []
  | S m => g n :: iterates g (g n) m
  end.

(** The lower-case hexadecimal digits. *)
Definition is_hex_lower (c : ascii) : bool :=
  let n := N_of_ascii c in
  (((48 <=? n) && (n <=? 57)) || ((97 <=? n) && (n <=? 102)))%N.

Fixpoint all_chars (p : ascii -> bool) (s : string) : bool :=
  match s with
  | EmptyString => true
  | String c r => p c && all_chars p r
  end.

(** [cfgs] made as calls [first], [first + 1], ... without awaiting any,
    then resumed in the order they were made. *)
Fixpoint starts (first : nat) (cfgs : list Cfg) : list Async.action :=
  match cfgs with
  | [] => []
  | c :: r => Async.Start first c :: starts (S first) r
  end.

Fixpoint resumes (first : nat) (n : nat) : list Async.action :=
  match n with
  | O => []
  | S m => Async.Resume first :: resumes (S first) m
  end.

Definition burst (cfgs : list Cfg) : list Async.action :=
  (starts 0 cfgs ++ resumes 0 (List.length cfgs))%list.

(** A request that carries the key of [s] and the signature of its own
    body under the secret of [s]. *)
Definition signed_for (s : instance) (c : Cfg) : Prop :=
  header "key" c = Some (key s)
  /\ header "sign" c = Some (_sign (body c) (secret s))
  /\ json c = true.

(** The instance of [w] has the credentials, proxy and policy of [s], and
    every request sent so far is signed for [s]. *)
Definition keeps_credentials (s : instance) (w : Async.world) : Prop :=
  key (Async.self w) = key s
  /\ secret (Async.self w) = secret s
  /\ proxyUrl (Async.self w) = proxyUrl s
  /\ nonceUpdateFn (Async.self w) = nonceUpdateFn s
  /\ Forall (signed_for s) (Async.transmitted w).

(** The calls made in a schedule, and the calls that returned among those
    settled. *)
Definition is_start (a : Async.action) : bool :=
  match a with Async.Start _ _ => true | Async.Resume _ => false end.

Definition calls_made (schedule : list Async.action) : nat :=
  List.length (filter is_start schedule).

Definition has_returned (r : nat * outcome Cfg) : bool :=
  match snd r with Return _ => true | Throw _ => false end.

(** Three calls of which the second, made together with the first, is
    resumed only after the third has been made and resumed. *)
Definition overtaken (c1 c2 c3 : Cfg) : list Async.action :=
  [Async.Start 1 c1; Async.Start 2 c2; Async.Resume 1;
   Async.Start 3 c3; Async.Resume 3; Async.Resume 2].

(** A client whose policy rejects, as a nonce store that is down would. *)
Definition client_rejecting : instance :=
  Instance "k" "s" Undefined (Num 1000)
           (Fn (fun _ => Throw (Rejected (Str "store down")))).

End Usage.

(* ================================================================== *)
(** ** Policies with a memory

    [Fn f] answers alike whenever it is given the same nonce.  A policy may
    also keep a memory of its own (a counter in a closure, a store shared
    with other processes): its answers then change from one invocation to
    the next.  Such a policy is given here by [behaviour], where
    [behaviour k] is what its invocation number [k] on the instance
    computes.  A call that is made runs [_request_before_await] on the
    instance as it is at that moment, its policy computing [behaviour k];
    a call that is resumed runs [_request_after_await], which does not
    invoke the policy. *)

Module Stateful.
Import Js Yobit.

(** [this] with its policy computing something else, nothing else
    changed. *)
Definition with_policy (self : instance) (c : callable) : instance :=
  Instance (key self) (secret self) (proxyUrl self) (nonce self) c.

Record world : Type := World {
  inner : Async.world;
  invocations : nat
}.

Definition step (behaviour : nat -> prim -> outcome prim)
           (w : world) (a : Async.action) : world :=
  match a with
  | Async.Start _ _ =>
      World (Async.step
               (Async.World
                  (with_policy (Async.self (inner w))
                               (Fn (behaviour (invocations w))))
                  (Async.pending (inner w))
                  (Async.settled (inner w))
                  (Async.trace (inner w)))
               a)
            (S (invocations w))
  | Async.Resume _ => World (Async.step (inner w) a) (invocations w)
  end.

Definition run (behaviour : nat -> prim -> outcome prim)
           (schedule : list Async.action) (w : world) : world :=
  fold_left (step behaviour) schedule w.

Definition initial (self : instance) : world := World (Async.initial self) 0.

(** The nonces the policy was given, invocation after invocation. *)
Definition policy_arguments (t : list event) : list prim :=
  flat_map (fun e => match e with NonceUpdateCalled n => [n] | _ => [] end) t.

(** What the calls of [Usage.starts first cfgs] leave pending when
    invocation [k] of the policy gave [g k]. *)
Fixpoint pending_by (first : nat) (cfgs : list Cfg) (g : nat -> prim)
  : list (nat * (Cfg * outcome prim)) :=
  match cfgs with
  | [] => []
  | c :: r =>
      (first, (with_headers c (headers_of c), Return (g first)))
        :: pending_by (S first) r g
  end.

(** A policy that counts its invocations and adds the count to the nonce
    it is given. *)
Definition counting (k : nat) (n : prim) : outcome prim :=
  Return (add n (Num (Z.of_nat k + 1))).

End Stateful.

Import Js Yobit Props.

(* ================================================================== *)
(** ** Objects *)

Lemma obj_get_set_same {V} (k : string) (v : V) (o : obj V) :
  obj_get k (obj_set k v o) = Some v.
Proof.
  induction o as [|[k' v'] r IH]; simpl.
  - now rewrite String.eqb_refl.
  - destruct (String.eqb k k') eqn:E; simpl; rewrite E; auto.
Qed.

Lemma obj_get_set_other {V} (k k' : string) (v : V) (o : obj V) :
  k <> k' -> obj_get k' (obj_set k v o) = obj_get k' o.
Proof.
  intros Hne. induction o as [|[k0 v0] r IH]; simpl.
  - destruct (String.eqb k' k) eqn:E; auto.
    apply String.eqb_eq in E. congruence.
  - destruct (String.eqb k k0) eqn:E; simpl.
    + apply String.eqb_eq in E. subst k0.
      destruct (String.eqb k' k) eqn:E'; auto.
      apply String.eqb_eq in E'. congruence.
    + now rewrite IH.
Qed.

Lemma obj_set_In_other {V} (k k' : string) (v v' : V) (o : obj V) :
  k <> k' -> In (k', v') o -> In (k', v') (obj_set k v o).
Proof.
  intros Hne. induction o as [|[k0 v0] r IH]; simpl; [tauto|].
  intros [H|H].
  - inversion H; subst. destruct (String.eqb k k') eqn:E.
    + apply String.eqb_eq in E. congruence.
    + now left.
  - destruct (String.eqb k k0); simpl; auto.
Qed.

(* ================================================================== *)
(** ** What [_request] does *)

(** One successful call, in closed form. *)
Lemma _request_resolved (self : instance) (cfg : Cfg) f v :
  nonceUpdateFn self = Fn f ->
  f (nonce self) = Return v ->
  _request cfg self =
    (Return (signed_cfg self v cfg), with_nonce self v,
     [ NonceUpdateCalled (nonce self);
       NonceStored v;
       ConsoleLog [Str "------------------NONCE IS "; v;
                   Str (Querystring.stringify (form cfg))];
       Signed (Querystring.stringify (form (signed_cfg self v cfg))) (secret self);
       Rp (signed_cfg self v cfg) ]).
Proof.
  intros Hf Hv.
  unfold _request, _request_before_await, _request_after_await, bind, this, call.
  rewrite Hf. cbn. rewrite Hv. cbn.
  destruct self as [k s px n fn]; cbn in *.
  unfold signed_cfg, with_nonce, form_of, headers_of; cbn.
  destruct (form cfg); destruct (headers cfg); destruct (truthy (proxy cfg)); reflexivity.
Qed.

(** A call whose policy is not a function, or throws, or rejects, stores
    nothing and sends nothing. *)
Lemma _request_not_callable (self : instance) (cfg : Cfg) x :
  nonceUpdateFn self = NotFn x ->
  _request cfg self = (Throw TypeError, self, []).
Proof.
  intros Hf.
  unfold _request, _request_before_await, _request_after_await, bind, this, call.
  rewrite Hf. reflexivity.
Qed.

Lemma _request_rejected (self : instance) (cfg : Cfg) f e :
  nonceUpdateFn self = Fn f ->
  f (nonce self) = Throw e ->
  _request cfg self = (Throw e, self, [NonceUpdateCalled (nonce self)]).
Proof.
  intros Hf He.
  unfold _request, _request_before_await, _request_after_await, bind, this, call.
  rewrite Hf. cbn. rewrite He. reflexivity.
Qed.

(* ================================================================== *)
(** ** Test vectors of the digest *)

Example sha512_abc :
  CryptoJS.hex (CryptoJS.sha512 (CryptoJS.bytes_of_string "abc")) =
  "ddaf35a193617abacc417349ae20413112e6fa4e89a97ea20a9eeee64b55d39a2192992a274fc1a836ba3c23a3feebbd454d4423643ce80e2a9ac94fa54ca49f".
Proof. vm_compute. reflexivity. Qed.

(** RFC 4231, test case 2. *)
Example hmac_sha512_rfc4231_2 :
  _sign "what do ya want for nothing?" "Jefe" =
  "164b7a7bfcf819e2e395fbe73b56e0a387bd64222e831fd610270cd7ea2505549758bf75c05a994a6d034f65f8f0e6fdcaeab1a34d4a6b4b636e070a38bce737".
Proof. vm_compute. reflexivity. Qed.

(* ================================================================== *)
(** ** The cancel-order scenario *)

(** The client of the scenario: [new Yobit("k", "s", {nonce: 1000})]. *)
Lemma scenario_client (now : Z) :
  constructor "k" "s" (ArgObject (Options (Num 1000) (NotFn Undefined) Undefined)) now
  = Return client_1000.
Proof. reflexivity. Qed.

(** C1. A client made with key "k", secret "s", initial nonce 1000 and no
    policy of its own, asked to cancel order 42, signs and sends the body
    [method=CancelOrder&order_id=42&nonce=1001], keys in that order, and its
    [sign] header is the hex HMAC-SHA512 of that string under "s". *)
Theorem C1_cancel_order_scenario (now : Z) :
  exists self cfg self' t,
    constructor "k" "s" (ArgObject (Options (Num 1000) (NotFn Undefined) Undefined)) now
      = Return self
    /\ CancelOrder (P (Num 42)) self = (Return cfg, self', t)
    /\ form cfg = Some [("method", P (Str "CancelOrder"));
                        ("order_id", P (Num 42));
                        ("nonce", P (Num 1001))]
    /\ body cfg = "method=CancelOrder&order_id=42&nonce=1001"
    /\ In (Signed "method=CancelOrder&order_id=42&nonce=1001" "s") t
    /\ In (Rp cfg) t
    /\ header "key" cfg = Some "k"
    /\ header "sign" cfg
       = Some (CryptoJS.hex (CryptoJS.hmac_sha512
                               (CryptoJS.bytes_of_string "s")
                               (CryptoJS.bytes_of_string
                                  "method=CancelOrder&order_id=42&nonce=1001")))
    /\ header "sign" cfg
       = Some "e0b5df6ef5d9c1523add19902ce05993bfa6ac8841ad25ea76cd37a300726ec0fdd143fc89d9ac0c98d0f12970babeb4e7d17124b4be3f314544cb4d69f09aa9".
Proof.
  eexists. eexists. eexists. eexists.
  split; [apply scenario_client|].
  split.
  { unfold CancelOrder.
    apply (_request_resolved _ _ default_nonceUpdateFn (Num 1001)); reflexivity. }
  repeat split; try (vm_compute; reflexivity).
  - cbn. right. right. right. left. reflexivity.
  - cbn. right. right. right. right. left. reflexivity.
Qed.

(** Whatever [_request] returns, it returned in that way. *)
Lemma _request_inv (self self' : instance) (cfg cfg' : Cfg) t :
  _request cfg self = (Return cfg', self', t) ->
  exists f v,
    nonceUpdateFn self = Fn f /\ f (nonce self) = Return v
    /\ cfg' = signed_cfg self v cfg /\ self' = with_nonce self v
    /\ t = [ NonceUpdateCalled (nonce self);
             NonceStored v;
             ConsoleLog [Str "------------------NONCE IS "; v;
                         Str (Querystring.stringify (form cfg))];
             Signed (Querystring.stringify (form cfg')) (secret self);
             Rp cfg' ].
Proof.
  intros H.
  destruct (nonceUpdateFn self) as [x|f] eqn:Hf.
  - rewrite (_request_not_callable _ _ x Hf) in H. discriminate.
  - destruct (f (nonce self)) as [v|e] eqn:Hv.
    + rewrite (_request_resolved _ _ f v Hf Hv) in H.
      inversion H; subst. exists f, v. repeat split; auto.
    + rewrite (_request_rejected _ _ f e Hf Hv) in H. discriminate.
Qed.

(* ================================================================== *)
(** ** The string [querystring.stringify] builds *)

Lemma append_assoc (a b c : string) : (a ++ b) ++ c = a ++ b ++ c.
Proof. induction a as [|x a IH]; simpl; [reflexivity | now rewrite IH]. Qed.

Lemma append_nonempty_r (a b : string) :
  Querystring.nonempty b = true -> Querystring.nonempty (a ++ b) = true.
Proof. destruct a; simpl; auto. Qed.

Lemma stringify_array_fold (ks : string) (l : list prim) (fields : string) :
  Querystring.nonempty fields = true ->
  Querystring.stringify_array ks l false fields =
  fold_left add_piece
    (map (fun p => ks ++ Querystring.escape (Querystring.stringifyPrimitive p)) l)
    fields.
Proof.
  revert fields. induction l as [|p r IH]; intros fields Hne; simpl; [reflexivity|].
  rewrite IH.
  - f_equal. unfold add_piece. rewrite Hne. now rewrite !append_assoc.
  - rewrite append_assoc. apply append_nonempty_r. reflexivity.
Qed.

Lemma piece_nonempty (k x : string) :
  Querystring.nonempty ((Querystring.escape k ++ "=") ++ x) = true.
Proof.
  rewrite append_assoc. apply append_nonempty_r. reflexivity.
Qed.

Lemma stringify_loop_fold (o : obj value) (fields : string) :
  Querystring.stringify_loop o fields = fold_left add_piece (flat_map pieces o) fields.
Proof.
  revert fields. induction o as [|[k v] r IH]; intros fields; [reflexivity|].
  cbn [Querystring.stringify_loop flat_map]. rewrite fold_left_app.
  destruct v as [p|[|p l]].
  - rewrite IH. f_equal. cbn [pieces fst snd fold_left]. unfold add_piece.
    destruct fields as [|c fields]; [reflexivity|].
    cbn [Querystring.nonempty String.eqb negb]. now rewrite !append_assoc.
  - rewrite IH. reflexivity.
  - rewrite IH. f_equal. cbn [Querystring.stringify_array pieces fst snd map fold_left].
    rewrite stringify_array_fold.
    + f_equal. unfold add_piece.
      destruct fields as [|c fields]; [reflexivity|].
      cbn [Querystring.nonempty String.eqb negb]. now rewrite !append_assoc.
    + destruct fields as [|c fields]; [apply piece_nonempty | reflexivity].
Qed.

Lemma pieces_nonempty (kv : string * value) (x : string) :
  In x (pieces kv) -> Querystring.nonempty x = true.
Proof.
  destruct kv as [k [p|l]]; unfold pieces; cbn [fst snd].
  - intros [<-|[]]. apply piece_nonempty.
  - rewrite in_map_iff. intros [p [<- _]]. apply piece_nonempty.
Qed.

Lemma fold_add_piece_concat (l : list string) (x : string) :
  Querystring.nonempty x = true ->
  (forall y, In y l -> Querystring.nonempty y = true) ->
  fold_left add_piece l x = String.concat "&" (x :: l).
Proof.
  revert x. induction l as [|y l IH]; intros x Hx Hl; [reflexivity|].
  cbn [fold_left]. rewrite IH.
  - unfold add_piece. rewrite Hx.
    cbn [String.concat]. destruct l; now rewrite ?append_assoc.
  - unfold add_piece. rewrite Hx. rewrite <- append_assoc.
    apply append_nonempty_r. apply Hl. now left.
  - intros z Hz. apply Hl. now right.
Qed.

(** [querystring.stringify] joins with [&] the pieces of the properties, in
    their order. *)
Lemma stringify_concat (o : obj value) :
  Querystring.stringify (Some o) = String.concat "&" (flat_map pieces o).
Proof.
  unfold Querystring.stringify. rewrite stringify_loop_fold.
  assert (H : forall y, In y (flat_map pieces o) -> Querystring.nonempty y = true).
  { intros y Hy. apply in_flat_map in Hy. destruct Hy as [kv [_ Hy]].
    now apply pieces_nonempty in Hy. }
  destruct (flat_map pieces o) as [|x l]; [reflexivity|].
  cbn [fold_left]. change (add_piece "" x) with x.
  apply fold_add_piece_concat.
  - apply H. now left.
  - intros y Hy. apply H. now right.
Qed.

(* ================================================================== *)
(** ** Parameters left [undefined] *)

(** C2, as stated, fails on [TradeHistory()] called on the client of the
    scenario: eight parameters are left out, and each of them is in the
    signed string with an empty value.  The string is not the one obtained
    by leaving them out. *)
Lemma C2_trade_history_placeholders :
  exists cfg self' t,
    TradeHistory ArgUndefined client_1000 = (Return cfg, self', t)
    /\ body cfg
       = "method=TradeHistory&from=&count=&from_id=&end_id=&order=&since=&end=&pair=&nonce=1001"
    /\ In (Signed
             "method=TradeHistory&from=&count=&from_id=&end_id=&order=&since=&end=&pair=&nonce=1001"
             "s") t
    /\ Querystring.stringify (Some (omit_undefined (form_of cfg)))
       = "method=TradeHistory&nonce=1001"
    /\ body cfg <> Querystring.stringify (Some (omit_undefined (form_of cfg))).
Proof.
  eexists. eexists. eexists.
  split.
  { unfold TradeHistory.
    apply (_request_resolved _ _ default_nonceUpdateFn (Num 1001)); reflexivity. }
  split; [vm_compute; reflexivity|].
  split; [cbn; right; right; right; left; reflexivity|].
  split; [vm_compute; reflexivity|].
  vm_compute. discriminate.
Qed.

(** C2 (amended). In every private call the signed string is the pieces of
    all the properties of the form joined by [&], in insertion order, and a
    parameter whose value is [undefined] is one of those pieces: its key,
    [=], and nothing after it. *)
Theorem C2_undefined_is_signed_empty (self self' : instance) (cfg cfg' : Cfg) t :
  _request cfg self = (Return cfg', self', t) ->
  body cfg' = String.concat "&" (flat_map pieces (form_of cfg'))
  /\ In (Signed (body cfg') (secret self)) t
  /\ forall k, k <> "nonce" -> In (k, P Undefined) (form_of cfg) ->
       In (k, P Undefined) (form_of cfg')
       /\ In (Querystring.escape k ++ "=") (flat_map pieces (form_of cfg')).
Proof.
  intros H. apply _request_inv in H.
  destruct H as (f & v & _ & _ & -> & _ & ->).
  unfold body. cbn [signed_cfg form form_of].
  split; [apply stringify_concat|].
  split; [cbn; auto|].
  intros k Hk Hin.
  assert (Hin' : In (k, P Undefined) (obj_set "nonce" (P v) (form_of cfg))).
  { apply obj_set_In_other; [congruence | exact Hin]. }
  split; [exact Hin'|].
  apply in_flat_map. exists (k, P Undefined). split; [exact Hin'|].
  unfold pieces; cbn [fst snd Querystring.stringifyPrimitive Querystring.escape].
  left. now rewrite append_assoc.
Qed.

Lemma C2_undefined_is_signed_empty_witness :
  exists cfg' self' t,
    _request (private_cfg [("method", P (Str "TradeHistory")); ("from", P Undefined)])
             client_1000 = (Return cfg', self', t)
    /\ body cfg' = String.concat "&" (flat_map pieces (form_of cfg'))
    /\ In (Signed (body cfg') (secret client_1000)) t
    /\ forall k, k <> "nonce" ->
         In (k, P Undefined)
            (form_of (private_cfg [("method", P (Str "TradeHistory"));
                                   ("from", P Undefined)])) ->
         In (k, P Undefined) (form_of cfg')
         /\ In (Querystring.escape k ++ "=") (flat_map pieces (form_of cfg')).
Proof.
  pose proof (_request_resolved client_1000
                (private_cfg [("method", P (Str "TradeHistory")); ("from", P Undefined)])
                default_nonceUpdateFn (Num 1001) eq_refl eq_refl) as E.
  eexists. eexists. eexists.
  split; [exact E|].
  exact (C2_undefined_is_signed_empty _ _ _ _ _ E).
Defined.

(** A default the wrapper itself substitutes is sent:
    [GetDepositAddress(coinName)] signs [need_new=0]. *)
Lemma GetDepositAddress_default (self : instance) (coinName : value) :
  GetDepositAddress coinName (P Undefined) self
  = GetDepositAddress coinName (P (Num 0)) self.
Proof. reflexivity. Qed.


(* ================================================================== *)
(** ** One private call *)

(** C5. A private call whose policy resolves calls that policy once, on the
    stored nonce, stores what it gave before anything is signed, puts that
    value in the [nonce] field of the body, signs the body built with it,
    and leaves [key], [secret], [proxyUrl] and [nonceUpdateFn] as they
    were. *)
Theorem C5_request_updates_nonce_once (self : instance) (cfg : Cfg) f v :
  nonceUpdateFn self = Fn f ->
  f (nonce self) = Return v ->
  exists cfg' self' logged,
    _request cfg self =
      (Return cfg', self',
       [ NonceUpdateCalled (nonce self);
         NonceStored v;
         ConsoleLog logged;
         Signed (body cfg') (secret self);
         Rp cfg' ])
    /\ nonce self' = v
    /\ body_nonce cfg' = Some (P v)
    /\ header "key" cfg' = Some (key self)
    /\ header "sign" cfg' = Some (_sign (body cfg') (secret self))
    /\ key self' = key self
    /\ secret self' = secret self
    /\ proxyUrl self' = proxyUrl self
    /\ nonceUpdateFn self' = nonceUpdateFn self.
Proof.
  intros Hf Hv.
  exists (signed_cfg self v cfg), (with_nonce self v).
  eexists. split; [apply (_request_resolved _ _ f v Hf Hv)|].
  unfold body_nonce, header, body; cbn [signed_cfg form_of headers_of form headers
                                        with_nonce nonce key secret proxyUrl nonceUpdateFn].
  repeat split.
  - apply obj_get_set_same.
  - rewrite obj_get_set_other by discriminate. apply obj_get_set_same.
  - apply obj_get_set_same.
Qed.

Lemma C5_request_updates_nonce_once_witness :
  exists cfg' self' logged,
    _request (private_cfg [("method", P (Str "getInfo"))]) client_1000 =
      (Return cfg', self',
       [ NonceUpdateCalled (nonce client_1000);
         NonceStored (Num 1001);
         ConsoleLog logged;
         Signed (body cfg') (secret client_1000);
         Rp cfg' ])
    /\ nonce self' = Num 1001
    /\ body_nonce cfg' = Some (P (Num 1001))
    /\ header "key" cfg' = Some (key client_1000)
    /\ header "sign" cfg' = Some (_sign (body cfg') (secret client_1000))
    /\ key self' = key client_1000
    /\ secret self' = secret client_1000
    /\ proxyUrl self' = proxyUrl client_1000
    /\ nonceUpdateFn self' = nonceUpdateFn client_1000.
Proof.
  exact (C5_request_updates_nonce_once client_1000
           (private_cfg [("method", P (Str "getInfo"))])
           default_nonceUpdateFn (Num 1001) eq_refl eq_refl).
Defined.

(* ================================================================== *)
(** ** Pairs *)

Lemma toLowerCase_length (s : string) :
  String.length (toLowerCase s) = String.length s.
Proof. induction s as [|c r IH]; simpl; [reflexivity | now rewrite IH]. Qed.

Lemma toLowerCase_get (s : string) (i : nat) :
  String.get i (toLowerCase s) = option_map lower_ascii (String.get i s).
Proof.
  revert i. induction s as [|c r IH]; intros i; simpl; [reflexivity|].
  destruct i; [reflexivity | apply IH].
Qed.

Lemma lower_ascii_not_upper (c : ascii) : is_upper (lower_ascii c) = false.
Proof.
  destruct c as [[] [] [] [] [] [] [] []]; vm_compute; reflexivity.
Qed.

Lemma lower_ascii_other (c : ascii) : is_upper c = false -> lower_ascii c = c.
Proof. unfold lower_ascii, is_upper. now intros ->. Qed.

(** C7. The pair normalizer sends [["BTC_USD"]] to ["btc_usd"] and
    [["BTC_USD","LTC_BTC"]] to ["btc_usd-ltc_btc"] (the elements joined by
    [-], then lower-cased); a string goes to itself lower-cased: same
    length, every upper-case letter replaced by its lower-case one, every
    other character kept. *)
Theorem C7_formatPairs :
  _formatPairs (Arr [Str "BTC_USD"]) = Return "btc_usd"
  /\ _formatPairs (Arr [Str "BTC_USD"; Str "LTC_BTC"]) = Return "btc_usd-ltc_btc"
  /\ (forall l, _formatPairs (Arr l)
                = Return (toLowerCase (String.concat "-" (map join_elem l))))
  /\ (forall s, _formatPairs (P (Str s)) = Return (toLowerCase s))
  /\ (forall s, String.length (toLowerCase s) = String.length s)
  /\ (forall s i, String.get i (toLowerCase s)
                  = option_map (fun c => if is_upper c
                                         then ascii_of_N (N_of_ascii c + 32)
                                         else c)
                               (String.get i s)).
Proof.
  repeat split; try reflexivity.
  - apply toLowerCase_length.
  - intros s i. apply toLowerCase_get.
Qed.

(** [Trade] and [ActiveOrders] put the normalized pair in the body. *)
Lemma Trade_pair_normalized (self : instance) (pair type rate amount : value) p :
  _formatPairs pair = Return p ->
  Trade pair type rate amount self =
  _request (private_cfg [("method", P (Str "Trade")); ("pair", P (Str p));
                         ("type", type); ("rate", rate); ("amount", amount)]) self.
Proof.
  intros H. unfold Trade, bind, lift. rewrite H.
  destruct (_request _ self) as [[r s] t]. reflexivity.
Qed.

Lemma ActiveOrders_pair_normalized (self : instance) (pair : value) p :
  _formatPairs pair = Return p ->
  ActiveOrders pair self =
  _request (private_cfg [("method", P (Str "ActiveOrders")); ("pair", P (Str p))]) self.
Proof.
  intros H. unfold ActiveOrders, bind, lift. rewrite H.
  destruct (_request _ self) as [[r s] t]. reflexivity.
Qed.

(** C6. [TradeHistory({pair: "LTC_BTC"})] on the client of the scenario
    signs [pair=LTC_BTC]: the pair is in the body as it was given, where
    [Trade] and [ActiveOrders] on the same pair sign [pair=ltc_btc]. *)
Theorem C6_TradeHistory_pair_as_given :
  (exists cfg self' t,
      TradeHistory
        (ArgObject (History (P Undefined) (P Undefined) (P Undefined) (P Undefined)
                            (P Undefined) (P Undefined) (P Undefined)
                            (P (Str "LTC_BTC"))))
        client_1000
        = (Return cfg, self', t)
      /\ obj_get "pair" (form_of cfg) = Some (P (Str "LTC_BTC"))
      /\ body cfg
         = "method=TradeHistory&from=&count=&from_id=&end_id=&order=&since=&end=&pair=LTC_BTC&nonce=1001")
  /\ (exists cfg self' t,
         ActiveOrders (P (Str "LTC_BTC")) client_1000 = (Return cfg, self', t)
         /\ obj_get "pair" (form_of cfg) = Some (P (Str "ltc_btc"))
         /\ body cfg = "method=ActiveOrders&pair=ltc_btc&nonce=1001")
  /\ (exists cfg self' t,
         Trade (P (Str "LTC_BTC")) (P (Str "buy")) (P (Num 2)) (P (Num 3)) client_1000
           = (Return cfg, self', t)
         /\ obj_get "pair" (form_of cfg) = Some (P (Str "ltc_btc"))
         /\ body cfg
            = "method=Trade&pair=ltc_btc&type=buy&rate=2&amount=3&nonce=1001").
Proof.
  split; [|split].
  - eexists. eexists. eexists. split.
    { unfold TradeHistory.
      apply (_request_resolved _ _ default_nonceUpdateFn (Num 1001)); reflexivity. }
    split; vm_compute; reflexivity.
  - eexists. eexists. eexists. split.
    { rewrite (ActiveOrders_pair_normalized _ (P (Str "LTC_BTC")) "ltc_btc" eq_refl).
      apply (_request_resolved _ _ default_nonceUpdateFn (Num 1001)); reflexivity. }
    split; vm_compute; reflexivity.
  - eexists. eexists. eexists. split.
    { rewrite (Trade_pair_normalized _ (P (Str "LTC_BTC")) _ _ _ "ltc_btc" eq_refl).
      apply (_request_resolved _ _ default_nonceUpdateFn (Num 1001)); reflexivity. }
    split; vm_compute; reflexivity.
Qed.


(* ================================================================== *)
(** ** Public accessors *)

(** The accessors hand a request to [rp] whenever the pairs are a string or
    an array. *)
Lemma public_accessors_return (pairs limit : value) p :
  _formatPairs pairs = Return p ->
  exists c1 c2 c3,
    ticker pairs = Return c1 /\ depth pairs limit = Return c2
    /\ trades pairs = Return c3.
Proof.
  intros H. unfold ticker, depth, trades. rewrite H.
  eexists. eexists. eexists. repeat split.
Qed.

(** C8. Whatever the pairs and the limit, a request issued by [info],
    [ticker], [depth] or [trades] has no headers at all (so no [key] and no
    [sign]), no form, and no [nonce] in its query string. *)
Theorem C8_public_requests_carry_nothing (pairs limit : value) (c : Cfg) :
  info = Return c \/ ticker pairs = Return c
  \/ depth pairs limit = Return c \/ trades pairs = Return c ->
  carries_credentials c = false
  /\ header "key" c = None /\ header "sign" c = None
  /\ body_nonce c = None /\ obj_get "nonce" (qs_of c) = None
  /\ headers c = None /\ form c = None.
Proof.
  unfold info, ticker, depth, trades.
  destruct (_formatPairs pairs) as [p|e];
    intros [H|[H|[H|H]]]; inversion H; subst; clear H;
    repeat split; reflexivity.
Qed.

Lemma C8_public_requests_carry_nothing_witness :
  exists c,
    depth (Arr [Str "BTC_USD"; Str "LTC_BTC"]) (P Undefined) = Return c
    /\ uri c = "https://yobit.net/api/3/depth/btc_usd-ltc_btc"
    /\ qs c = Some [("limit", P (Num 100))]
    /\ carries_credentials c = false
    /\ header "key" c = None /\ header "sign" c = None
    /\ body_nonce c = None /\ obj_get "nonce" (qs_of c) = None
    /\ headers c = None /\ form c = None.
Proof.
  eexists. split; [reflexivity|]. split; [reflexivity|]. split; [reflexivity|].
  apply (C8_public_requests_carry_nothing
           (Arr [Str "BTC_USD"; Str "LTC_BTC"]) (P Undefined)).
  right. right. left. reflexivity.
Defined.

(* ================================================================== *)
(** ** Construction *)

(** C9. [new Yobit(key, secret)], with no options argument, throws; with an
    empty options object it succeeds, and every default applies. *)
Theorem C9_constructor_requires_options (key secret : string) (now : Z) :
  constructor key secret ArgUndefined now = Throw TypeError
  /\ constructor key secret (ArgObject empty_options) now
     = Return (Instance key secret Undefined (timestamp now)
                        (Fn default_nonceUpdateFn)).
Proof. split; reflexivity. Qed.



(** A truthy option is kept. *)
Lemma constructor_keeps_truthy (key secret : string) (o : options) (now : Z) :
  truthy (opt_nonce o) = true ->
  truthy_callable (opt_nonceUpdateFn o) = true ->
  constructor key secret (ArgObject o) now
  = Return (Instance key secret (opt_proxyUrl o) (opt_nonce o) (opt_nonceUpdateFn o)).
Proof. intros H1 H2. unfold constructor. now rewrite H1, H2. Qed.


(* ================================================================== *)
(** ** Calls in flight on one instance *)

Import Async.

Lemma before_await_callable (self : instance) (cfg : Cfg) f :
  nonceUpdateFn self = Fn f ->
  _request_before_await cfg self =
  (Return (with_headers cfg (headers_of cfg), f (nonce self)), self,
   [NonceUpdateCalled (nonce self)]).
Proof.
  intros Hf. unfold _request_before_await, bind, this, call. rewrite Hf. reflexivity.
Qed.

Lemma after_await_resolved (self : instance) (cfg : Cfg) v :
  _request_after_await (with_headers cfg (headers_of cfg), Return v) self =
  (Return (signed_cfg self v cfg), with_nonce self v,
   [ NonceStored v;
     ConsoleLog [Str "------------------NONCE IS "; v;
                 Str (Querystring.stringify (form cfg))];
     Signed (Querystring.stringify (form (signed_cfg self v cfg))) (secret self);
     Rp (signed_cfg self v cfg) ]).
Proof.
  unfold _request_after_await, bind, this, lift. cbn.
  destruct self as [k s px n fn]; cbn.
  unfold signed_cfg, with_nonce, form_of, headers_of; cbn.
  destruct (form cfg); destruct (headers cfg); destruct (truthy (proxy cfg)); reflexivity.
Qed.

Lemma after_await_thrown (self : instance) (cfg : Cfg) e :
  _request_after_await (cfg, Throw e) self = (Throw e, self, []).
Proof. reflexivity. Qed.

(** A call that is resumed before anything else happens is [_request]
    itself: the sequential reading of the method is one of the schedules. *)
Lemma run_start_resume (w : world) (id : nat) (cfg : Cfg) :
  pending w = [] ->
  run [Start id cfg; Resume id] w =
  let '(r, self', t) := _request cfg (self w) in
  World self' [] (settled w ++ [(id, r)]) (trace w ++ t).
Proof.
  intros Hp. destruct w as [s p st tr]. cbn in Hp. subst p.
  unfold run, _request, bind. cbn [fold_left step self pending settled trace].
  destruct (_request_before_await cfg s) as [[[x|e] s1] t1] eqn:E.
  - cbn [app take self pending settled trace]. rewrite Nat.eqb_refl.
    destruct (_request_after_await x s1) as [[r s2] t2].
    now rewrite app_assoc.
  - exfalso. revert E.
    unfold _request_before_await, bind, this, call.
    destruct (nonceUpdateFn s); cbn; discriminate.
Qed.

Lemma step_Start s p st tr (id : nat) (cfg : Cfg) f :
  nonceUpdateFn s = Fn f ->
  step (World s p st tr) (Start id cfg) =
  World s (p ++ [(id, (with_headers cfg (headers_of cfg), f (nonce s)))]) st
        (tr ++ [NonceUpdateCalled (nonce s)]).
Proof.
  intros Hf. unfold step. cbn [self pending settled trace].
  now rewrite (before_await_callable _ _ f Hf).
Qed.

Lemma step_Resume_resolved s p st tr (id : nat) (cfg : Cfg) v rest :
  take id p = Some ((with_headers cfg (headers_of cfg), Return v), rest) ->
  step (World s p st tr) (Resume id) =
  World (with_nonce s v) rest (st ++ [(id, Return (signed_cfg s v cfg))])
        (tr ++ [ NonceStored v;
                 ConsoleLog [Str "------------------NONCE IS "; v;
                             Str (Querystring.stringify (form cfg))];
                 Signed (Querystring.stringify (form (signed_cfg s v cfg))) (secret s);
                 Rp (signed_cfg s v cfg) ]).
Proof.
  intros Ht. unfold step. cbn [self pending settled trace]. rewrite Ht.
  now rewrite after_await_resolved.
Qed.

Lemma step_Resume_thrown s p st tr (id : nat) (cfg : Cfg) e rest :
  take id p = Some ((cfg, Throw e), rest) ->
  step (World s p st tr) (Resume id) = World s rest (st ++ [(id, Throw e)]) (tr ++ []).
Proof.
  intros Ht. unfold step. cbn [self pending settled trace]. now rewrite Ht.
Qed.

Lemma body_nonce_signed (self : instance) (v : prim) (cfg : Cfg) :
  body_nonce (signed_cfg self v cfg) = Some (P v).
Proof. unfold body_nonce. cbn [signed_cfg form_of form]. apply obj_get_set_same. Qed.

(** C3, as stated, fails on two calls of the cancel-order wrapper made back
    to back on the client of the scenario: both requests leave with nonce
    1001. *)
Lemma C3_back_to_back_same_nonce :
  CancelOrder (P (Num 42)) = _request (cancel_cfg 42)
  /\ CancelOrder (P (Num 43)) = _request (cancel_cfg 43)
  /\ map body
       (transmitted (run (back_to_back (cancel_cfg 42) (cancel_cfg 43))
                         (initial client_1000)))
     = [ "method=CancelOrder&order_id=42&nonce=1001";
         "method=CancelOrder&order_id=43&nonce=1001" ]
  /\ map body_nonce
       (transmitted (run (back_to_back (cancel_cfg 42) (cancel_cfg 43))
                         (initial client_1000)))
     = [ Some (P (Num 1001)); Some (P (Num 1001)) ].
Proof. repeat split; vm_compute; reflexivity. Qed.

Lemma stateful_step_Start b s p st tr (k id : nat) (cfg : Cfg) :
  Stateful.step b (Stateful.World (World s p st tr) k) (Start id cfg) =
  Stateful.World
    (World (Stateful.with_policy s (Fn (b k)))
           (p ++ [(id, (with_headers cfg (headers_of cfg), b k (nonce s)))]) st
           (tr ++ [NonceUpdateCalled (nonce s)]))
    (S k).
Proof.
  unfold Stateful.step.
  cbn [Stateful.inner Stateful.invocations Async.self pending settled trace].
  now rewrite (step_Start (Stateful.with_policy s (Fn (b k))) _ _ _ _ _ (b k) eq_refl).
Qed.

Lemma stateful_step_Resume b (w : world) (k id : nat) :
  Stateful.step b (Stateful.World w k) (Resume id)
  = Stateful.World (step w (Resume id)) k.
Proof. reflexivity. Qed.

(** C3 (amended). Nothing excludes one call from the read-apply-store
    sequence of another: the nonce is read and the policy invoked when a
    call is made, and the result is stored when the call is resumed.  Two
    calls made back to back both read the same stored nonce and give it to
    the policy, and each transmits what its own invocation of the policy
    returned; when the policy answers alike on that nonce both times, as
    the default policy does, both transmit the same nonce.  When the second
    call is made after the first has been resumed, it gives the policy what
    the first stored. *)
Theorem C3_calls_in_flight_read_the_same_nonce
        (self : instance) (behaviour : nat -> prim -> outcome prim)
        (c1 c2 : Cfg) (v1 v2 : prim) :
  behaviour 0%nat (nonce self) = Return v1 ->
  behaviour 1%nat (nonce self) = Return v2 ->
  Stateful.policy_arguments
    (trace (Stateful.inner
              (Stateful.run behaviour (back_to_back c1 c2) (Stateful.initial self))))
    = [nonce self; nonce self]
  /\ map body_nonce
       (transmitted (Stateful.inner
                       (Stateful.run behaviour (back_to_back c1 c2)
                                     (Stateful.initial self))))
     = [Some (P v1); Some (P v2)]
  /\ nonce (Async.self (Stateful.inner
                          (Stateful.run behaviour (back_to_back c1 c2)
                                        (Stateful.initial self)))) = v2
  /\ (behaviour 1%nat (nonce self) = behaviour 0%nat (nonce self) ->
      map body_nonce
        (transmitted (Stateful.inner
                        (Stateful.run behaviour (back_to_back c1 c2)
                                      (Stateful.initial self))))
      = [Some (P v1); Some (P v1)])
  /\ Stateful.policy_arguments
       (trace (Stateful.inner
                 (Stateful.run behaviour (one_after_the_other c1 c2)
                               (Stateful.initial self))))
     = [nonce self; v1]
  /\ map body_nonce
       (transmitted (Stateful.inner
                       (Stateful.run behaviour (one_after_the_other c1 c2)
                                     (Stateful.initial self))))
     = Some (P v1) :: match behaviour 1%nat v1 with
                      | Return v' => [Some (P v')]
                      | Throw _ => []
                      end.
Proof.
  intros H0 H1.
  assert (Hback :
            Stateful.inner
              (Stateful.run behaviour (back_to_back c1 c2) (Stateful.initial self))
            = World (with_nonce
                       (with_nonce (Stateful.with_policy
                                      (Stateful.with_policy self (Fn (behaviour 0%nat)))
                                      (Fn (behaviour 1%nat))) v1) v2)
                    []
                    [(1%nat, Return (signed_cfg
                                       (Stateful.with_policy
                                          (Stateful.with_policy self (Fn (behaviour 0%nat)))
                                          (Fn (behaviour 1%nat))) v1 c1));
                     (2%nat, Return (signed_cfg
                                       (with_nonce
                                          (Stateful.with_policy
                                             (Stateful.with_policy self
                                                (Fn (behaviour 0%nat)))
                                             (Fn (behaviour 1%nat))) v1) v2 c2))]
                    ([NonceUpdateCalled (nonce self); NonceUpdateCalled (nonce self)]
                     ++ [ NonceStored v1;
                          ConsoleLog [Str "------------------NONCE IS "; v1;
                                      Str (Querystring.stringify (form c1))];
                          Signed (Querystring.stringify
                                    (form (signed_cfg
                                             (Stateful.with_policy
                                                (Stateful.with_policy self
                                                   (Fn (behaviour 0%nat)))
                                                (Fn (behaviour 1%nat))) v1 c1)))
                                 (secret self);
                          Rp (signed_cfg
                                (Stateful.with_policy
                                   (Stateful.with_policy self (Fn (behaviour 0%nat)))
                                   (Fn (behaviour 1%nat))) v1 c1) ]
                     ++ [ NonceStored v2;
                          ConsoleLog [Str "------------------NONCE IS "; v2;
                                      Str (Querystring.stringify (form c2))];
                          Signed (Querystring.stringify
                                    (form (signed_cfg
                                             (with_nonce
                                                (Stateful.with_policy
                                                   (Stateful.with_policy self
                                                      (Fn (behaviour 0%nat)))
                                                   (Fn (behaviour 1%nat))) v1) v2 c2)))
                                 (secret self);
                          Rp (signed_cfg
                                (with_nonce
                                   (Stateful.with_policy
                                      (Stateful.with_policy self (Fn (behaviour 0%nat)))
                                      (Fn (behaviour 1%nat))) v1) v2 c2) ])%list).
  { unfold Stateful.run, back_to_back, Stateful.initial, initial. cbn [fold_left].
    rewrite !stateful_step_Start. cbn [Stateful.with_policy nonce app].
    rewrite H0, H1. rewrite !stateful_step_Resume. cbn [Stateful.inner].
    erewrite step_Resume_resolved by reflexivity.
    erewrite step_Resume_resolved by reflexivity.
    reflexivity. }
  assert (Hnonces :
            map body_nonce
              (transmitted (Stateful.inner
                              (Stateful.run behaviour (back_to_back c1 c2)
                                            (Stateful.initial self))))
            = [Some (P v1); Some (P v2)]).
  { rewrite Hback. cbn. now rewrite !obj_get_set_same. }
  split; [rewrite Hback; reflexivity|].
  split; [exact Hnonces|].
  split; [rewrite Hback; reflexivity|].
  split.
  { intros Hsame. rewrite Hnonces. rewrite H0, H1 in Hsame.
    inversion Hsame. reflexivity. }
  unfold Stateful.run, one_after_the_other, Stateful.initial, initial. cbn [fold_left].
  rewrite stateful_step_Start. cbn [Stateful.with_policy nonce app]. rewrite H0.
  rewrite stateful_step_Resume.
  erewrite step_Resume_resolved by reflexivity.
  rewrite stateful_step_Start. cbn [Stateful.with_policy with_nonce nonce app].
  rewrite stateful_step_Resume. cbn [Stateful.inner].
  destruct (behaviour 1%nat v1) as [v'|e].
  - erewrite step_Resume_resolved by reflexivity.
    split; [reflexivity|]. cbn. now rewrite !obj_get_set_same.
  - erewrite step_Resume_thrown by reflexivity.
    split; [reflexivity|]. cbn. now rewrite !obj_get_set_same.
Qed.

Lemma C3_calls_in_flight_read_the_same_nonce_witness :
  Stateful.policy_arguments
    (trace (Stateful.inner
              (Stateful.run (fun _ => default_nonceUpdateFn)
                            (back_to_back (cancel_cfg 42) (cancel_cfg 43))
                            (Stateful.initial client_1000))))
    = [Num 1000; Num 1000]
  /\ map body_nonce
       (transmitted (Stateful.inner
                       (Stateful.run (fun _ => default_nonceUpdateFn)
                                     (back_to_back (cancel_cfg 42) (cancel_cfg 43))
                                     (Stateful.initial client_1000))))
     = [Some (P (Num 1001)); Some (P (Num 1001))]
  /\ nonce (Async.self (Stateful.inner
                          (Stateful.run (fun _ => default_nonceUpdateFn)
                                        (back_to_back (cancel_cfg 42) (cancel_cfg 43))
                                        (Stateful.initial client_1000)))) = Num 1001
  /\ (default_nonceUpdateFn (Num 1000) = default_nonceUpdateFn (Num 1000) ->
      map body_nonce
        (transmitted (Stateful.inner
                        (Stateful.run (fun _ => default_nonceUpdateFn)
                                      (back_to_back (cancel_cfg 42) (cancel_cfg 43))
                                      (Stateful.initial client_1000))))
      = [Some (P (Num 1001)); Some (P (Num 1001))])
  /\ Stateful.policy_arguments
       (trace (Stateful.inner
                 (Stateful.run (fun _ => default_nonceUpdateFn)
                               (one_after_the_other (cancel_cfg 42) (cancel_cfg 43))
                               (Stateful.initial client_1000))))
     = [Num 1000; Num 1001]
  /\ map body_nonce
       (transmitted (Stateful.inner
                       (Stateful.run (fun _ => default_nonceUpdateFn)
                                     (one_after_the_other (cancel_cfg 42) (cancel_cfg 43))
                                     (Stateful.initial client_1000))))
     = [Some (P (Num 1001)); Some (P (Num 1002))].
Proof.
  exact (C3_calls_in_flight_read_the_same_nonce client_1000
           (fun _ => default_nonceUpdateFn) (cancel_cfg 42) (cancel_cfg 43)
           (Num 1001) (Num 1001) eq_refl eq_refl).
Defined.

(** With a policy that counts its invocations the same two calls give the
    policy the same nonce and transmit different ones. *)
Lemma back_to_back_counting_policy :
  Stateful.policy_arguments
    (trace (Stateful.inner
              (Stateful.run Stateful.counting
                            (back_to_back (cancel_cfg 42) (cancel_cfg 43))
                            (Stateful.initial client_1000))))
    = [Num 1000; Num 1000]
  /\ map body_nonce
       (transmitted (Stateful.inner
                       (Stateful.run Stateful.counting
                                     (back_to_back (cancel_cfg 42) (cancel_cfg 43))
                                     (Stateful.initial client_1000))))
     = [Some (P (Num 1001)); Some (P (Num 1002))].
Proof. split; vm_compute; reflexivity. Qed.


(* ================================================================== *)
(** ** Calls made one after the other *)

(** Up to 2^53 in absolute value every integer is a double. *)
Lemma to_double_exact (z : Z) :
  - 2 ^ 53 <= z <= 2 ^ 53 -> to_double z = z.
Proof.
  intros H. unfold to_double.
  destruct (Z.abs z <? 2 ^ 53) eqn:E; [reflexivity|].
  apply Z.ltb_ge in E.
  assert (Hz : z = 2 ^ 53 \/ z = - 2 ^ 53) by lia.
  destruct Hz as [-> | ->]; vm_compute; reflexivity.
Qed.

Lemma default_nonceUpdateFn_exact (n : Z) :
  - 2 ^ 53 <= n -> n + 1 <= 2 ^ 53 ->
  default_nonceUpdateFn (Num n) = Return (Num (n + 1)).
Proof.
  intros H1 H2. unfold default_nonceUpdateFn, add. cbn.
  rewrite to_double_exact by lia. reflexivity.
Qed.

(** At 2^53 the sum [nonce + 1] rounds back to [nonce]. *)
Lemma default_nonceUpdateFn_stuck :
  default_nonceUpdateFn (Num (2 ^ 53)) = Return (Num (2 ^ 53)).
Proof. vm_compute. reflexivity. Qed.

Lemma count_from_length (n : Z) (len : nat) :
  List.length (count_from n len) = len.
Proof. revert n. induction len; intros n; simpl; auto. Qed.

Lemma count_from_lower (n : Z) (len : nat) (x : Z) :
  In x (count_from n len) -> n <= x.
Proof.
  revert n. induction len as [|len IH]; intros n; simpl; [tauto|].
  intros [<- | H]; [lia|]. apply IH in H. lia.
Qed.

Lemma count_from_sorted (n : Z) (len : nat) :
  StronglySorted Z.lt (count_from n len).
Proof.
  revert n. induction len as [|len IH]; intros n; simpl; constructor.
  - apply IH.
  - apply Forall_forall. intros x Hx. apply count_from_lower in Hx. lia.
Qed.

Lemma count_from_NoDup (n : Z) (len : nat) : NoDup (count_from n len).
Proof.
  revert n. induction len as [|len IH]; intros n; simpl; constructor.
  - intros H. apply count_from_lower in H. lia.
  - apply IH.
Qed.

Lemma in_sequence_default (cfgs : list Cfg) :
  forall (self : instance) (n0 : Z),
    nonceUpdateFn self = Fn default_nonceUpdateFn ->
    nonce self = Num n0 ->
    - 2 ^ 53 <= n0 ->
    n0 + Z.of_nat (List.length cfgs) <= 2 ^ 53 ->
    exists rs self' t,
      in_sequence (map _request cfgs) self = (Return rs, self', t)
      /\ map body_nonce rs = map num_nonce (count_from (n0 + 1) (List.length cfgs))
      /\ nonceUpdateFn self' = Fn default_nonceUpdateFn
      /\ nonce self' = Num (n0 + Z.of_nat (List.length cfgs)).
Proof.
  induction cfgs as [|c r IH]; intros self n0 Hf Hn Hlo Hhi.
  - exists [], self, []. cbn. rewrite Z.add_0_r. auto.
  - cbn [List.length] in Hhi. rewrite Nat2Z.inj_succ in Hhi.
    assert (Hstep : default_nonceUpdateFn (nonce self) = Return (Num (n0 + 1))).
    { rewrite Hn. apply default_nonceUpdateFn_exact; lia. }
    pose proof (_request_resolved self c _ _ Hf Hstep) as E.
    destruct (IH (with_nonce self (Num (n0 + 1))) (n0 + 1)) as (rs & self' & t & Er & Hm & Hf' & Hn');
      [exact Hf | reflexivity | lia | lia |].
    eexists. eexists. eexists.
    cbn [map in_sequence List.length count_from]. unfold bind at 1. rewrite E.
    unfold bind at 1. rewrite Er. cbn [ret].
    split; [reflexivity|].
    cbn [map]. rewrite body_nonce_signed, Hm.
    split; [reflexivity|]. split; [exact Hf'|].
    rewrite Hn'. f_equal. rewrite Nat2Z.inj_succ. lia.
Qed.

(** C4, as stated, fails on the client whose nonce is 2^53: it sends the
    same nonce twice in two calls made one after the other. *)
Lemma C4_nonce_repeats_at_2_53 :
  exists rs self' t,
    constructor "k" "s"
      (ArgObject (Options (Num 9007199254740992) (NotFn Undefined) Undefined)) 0
      = Return client_2_53
    /\ nonceUpdateFn client_2_53 = Fn default_nonceUpdateFn
    /\ in_sequence [getInfo; getInfo] client_2_53 = (Return rs, self', t)
    /\ map body_nonce rs = [ Some (P (Num 9007199254740992));
                             Some (P (Num 9007199254740992)) ]
    /\ map body rs = [ "method=getInfo&nonce=9007199254740992";
                       "method=getInfo&nonce=9007199254740992" ]
    /\ ~ NoDup (map body_nonce rs).
Proof.
  pose proof (_request_resolved client_2_53 (private_cfg [("method", P (Str "getInfo"))])
                default_nonceUpdateFn (Num 9007199254740992)
                eq_refl default_nonceUpdateFn_stuck) as E.
  change (with_nonce client_2_53 (Num 9007199254740992)) with client_2_53 in E.
  eexists. eexists. eexists.
  split; [reflexivity|]. split; [reflexivity|].
  split.
  { cbn [in_sequence]. unfold getInfo, bind.
    rewrite E. cbv beta iota. rewrite E. cbv beta iota.
    unfold ret. reflexivity. }
  cbn [map]. rewrite !body_nonce_signed.
  split; [reflexivity|].
  split; [vm_compute; reflexivity|].
  intros H. inversion H as [|x l Hnotin _]. apply Hnotin. now left.
Qed.

(** C4 (amended). With the default policy and a stored nonce [n0] such that
    [-2^53 <= n0] and [n0 + N <= 2^53], [N] private requests made one
    after the other all succeed and carry the nonces [n0 + 1], ...,
    [n0 + N]: strictly increasing, pairwise distinct. *)
Theorem C4_sequential_nonces_increase (self : instance) (n0 : Z) (cfgs : list Cfg) :
  nonceUpdateFn self = Fn default_nonceUpdateFn ->
  nonce self = Num n0 ->
  - 2 ^ 53 <= n0 ->
  n0 + Z.of_nat (List.length cfgs) <= 2 ^ 53 ->
  exists rs self' t ns,
    in_sequence (map _request cfgs) self = (Return rs, self', t)
    /\ List.length rs = List.length cfgs
    /\ map body_nonce rs = map num_nonce ns
    /\ ns = count_from (n0 + 1) (List.length cfgs)
    /\ StronglySorted Z.lt ns
    /\ NoDup ns
    /\ nonce self' = Num (n0 + Z.of_nat (List.length cfgs)).
Proof.
  intros Hf Hn Hlo Hhi.
  destruct (in_sequence_default cfgs self n0 Hf Hn Hlo Hhi)
    as (rs & self' & t & E & Hm & _ & Hn').
  exists rs, self', t, (count_from (n0 + 1) (List.length cfgs)).
  split; [exact E|].
  split.
  { rewrite <- (length_map body_nonce rs), Hm, length_map. apply count_from_length. }
  split; [exact Hm|]. split; [reflexivity|].
  split; [apply count_from_sorted|].
  split; [apply count_from_NoDup | exact Hn'].
Qed.

Lemma C4_sequential_nonces_increase_witness :
  exists rs self' t ns,
    in_sequence (map _request [cancel_cfg 42; cancel_cfg 43; cancel_cfg 44]) client_1000
      = (Return rs, self', t)
    /\ List.length rs = 3%nat
    /\ map body_nonce rs = map num_nonce ns
    /\ ns = [1001; 1002; 1003]
    /\ StronglySorted Z.lt ns
    /\ NoDup ns
    /\ nonce self' = Num 1003.
Proof.
  exact (C4_sequential_nonces_increase client_1000 1000
           [cancel_cfg 42; cancel_cfg 43; cancel_cfg 44]
           eq_refl eq_refl ltac:(lia) ltac:(vm_compute; discriminate)).
Defined.


(* ================================================================== *)
(** * Further properties of the class *)

Import Usage.

(* ================================================================== *)
(** ** Calls that fail *)

(** X1. A private call that throws leaves the instance exactly as it was:
    nothing is stored; and nothing is logged, signed or handed to [rp]: its
    trace is empty or holds only the call of the policy. *)
Theorem X1_failed_request_changes_nothing
        (self self' : instance) (cfg : Cfg) (e : exn) (t : list event) :
  _request cfg self = (Throw e, self', t) ->
  self' = self /\ (t = [] \/ t = [NonceUpdateCalled (nonce self)]).
Proof.
  intros H.
  destruct (nonceUpdateFn self) as [x|f] eqn:Hf.
  - rewrite (_request_not_callable _ _ x Hf) in H. inversion H; auto.
  - destruct (f (nonce self)) as [v|e'] eqn:Hv.
    + rewrite (_request_resolved _ _ f v Hf Hv) in H. discriminate.
    + rewrite (_request_rejected _ _ f e' Hf Hv) in H. inversion H; auto.
Qed.

Lemma X1_failed_request_changes_nothing_witness :
  _request (cancel_cfg 42) client_rejecting
  = (Throw (Rejected (Str "store down")), client_rejecting,
     [NonceUpdateCalled (Num 1000)])
  /\ client_rejecting = client_rejecting
  /\ ([NonceUpdateCalled (Num 1000)] = []
      \/ [NonceUpdateCalled (Num 1000)] = [NonceUpdateCalled (nonce client_rejecting)]).
Proof.
  split; [reflexivity|].
  exact (X1_failed_request_changes_nothing
           client_rejecting client_rejecting (cancel_cfg 42)
           (Rejected (Str "store down")) [NonceUpdateCalled (Num 1000)] eq_refl).
Defined.

(** Every wrapper either is [_request] on a form that starts with its
    [method] and has no [nonce] yet, or throws a TypeError on its arguments
    before anything else happens. *)
Lemma invoke_cases (i : invocation) (self : instance) :
  (exists params,
      obj_get "nonce" params = None
      /\ invoke i self
         = _request (private_cfg (("method", P (Str (method_name i))) :: params)) self)
  \/ invoke i self = (Throw TypeError, self, []).
Proof.
  destruct i as [ | pair type rate amount | pair | order_id | order_id | opts
                | coinName need_new | coinName amount address
                | currency amount | coupon ];
    cbn [invoke method_name].
  - left. exists []. split; reflexivity.
  - destruct (_formatPairs pair) as [p|[|r]] eqn:E.
    + left. eexists. split; [|apply (Trade_pair_normalized _ _ _ _ _ p E)].
      reflexivity.
    + right. unfold Trade, bind, lift. now rewrite E.
    + destruct pair as [[]|]; discriminate.
  - destruct (_formatPairs pair) as [p|[|r]] eqn:E.
    + left. eexists. split; [|apply (ActiveOrders_pair_normalized _ _ p E)].
      reflexivity.
    + right. unfold ActiveOrders, bind, lift. now rewrite E.
    + destruct pair as [[]|]; discriminate.
  - left. eexists. split; [|reflexivity]. reflexivity.
  - left. eexists. split; [|reflexivity]. reflexivity.
  - destruct opts as [| |o]; cbn.
    + left. eexists. split; [|reflexivity]. reflexivity.
    + now right.
    + left. eexists. split; [|reflexivity]. reflexivity.
  - left. eexists. split; [|reflexivity]. reflexivity.
  - left. eexists. split; [|reflexivity]. reflexivity.
  - left. eexists. split; [|reflexivity]. reflexivity.
  - left. eexists. split; [|reflexivity]. reflexivity.
Qed.

(** X2. A truthy [nonceUpdateFn] option that is not a function is kept by
    the constructor as it is, and then every wrapper throws a TypeError,
    stores nothing and sends nothing. *)
Theorem X2_policy_not_a_function
        (key secret : string) (o : options) (now : Z) (v : prim) :
  opt_nonceUpdateFn o = NotFn v ->
  truthy v = true ->
  exists self,
    constructor key secret (ArgObject o) now = Return self
    /\ nonceUpdateFn self = NotFn v
    /\ forall i, invoke i self = (Throw TypeError, self, []).
Proof.
  intros Ho Hv.
  exists (Instance key secret (opt_proxyUrl o)
                   (if truthy (opt_nonce o) then opt_nonce o else timestamp now)
                   (NotFn v)).
  split.
  { unfold constructor. rewrite Ho. cbn [truthy_callable]. now rewrite Hv. }
  split; [reflexivity|].
  intros i.
  destruct (invoke_cases i
              (Instance key secret (opt_proxyUrl o)
                        (if truthy (opt_nonce o) then opt_nonce o else timestamp now)
                        (NotFn v))) as [(params & _ & E)|E].
  - rewrite E. apply (_request_not_callable _ _ v). reflexivity.
  - exact E.
Qed.

Lemma X2_policy_not_a_function_witness :
  exists self,
    constructor "k" "s" (ArgObject (Options (Num 1000) (NotFn (Str "inc")) Undefined)) 0
      = Return self
    /\ nonceUpdateFn self = NotFn (Str "inc")
    /\ forall i, invoke i self = (Throw TypeError, self, []).
Proof.
  exact (X2_policy_not_a_function "k" "s"
           (Options (Num 1000) (NotFn (Str "inc")) Undefined) 0 (Str "inc")
           eq_refl eq_refl).
Defined.

(* ================================================================== *)
(** ** The request every wrapper makes *)

Lemma obj_set_absent {V} (k : string) (v : V) (o : obj V) :
  obj_get k o = None -> obj_set k v o = (o ++ [(k, v)])%list.
Proof.
  induction o as [|[k' v'] r IH]; simpl; [reflexivity|].
  destruct (String.eqb k k'); [discriminate|].
  intros H. now rewrite IH.
Qed.

Lemma method_name_escape (i : invocation) :
  Querystring.escape (method_name i) = method_name i.
Proof. destruct i; reflexivity. Qed.

(** What a wrapper that returns has done, in closed form. *)
Lemma invoke_returned (i : invocation) (self self' : instance) (cfg' : Cfg) t :
  invoke i self = (Return cfg', self', t) ->
  exists params v,
    obj_get "nonce" params = None
    /\ cfg' = signed_cfg self v
                (private_cfg (("method", P (Str (method_name i))) :: params))
    /\ self' = with_nonce self v.
Proof.
  intros H. destruct (invoke_cases i self) as [(params & Hp & E)|E].
  - rewrite E in H. apply _request_inv in H.
    destruct H as (f & v & _ & _ & -> & -> & _).
    exists params, v. auto.
  - rewrite E in H. discriminate.
Qed.

(** X3. A wrapper that returns has handed [rp] a POST to
    [https://yobit.net/tapi] with [json] set, the proxy of the instance, no
    query string, exactly the two headers [key] and [sign] (the signature
    of the body under the secret), and a form made of [method] (the name of
    the remote method) first, the parameters, and the stored nonce last. *)
Theorem X3_wrapper_request_shape
        (i : invocation) (self self' : instance) (cfg' : Cfg) (t : list event) :
  invoke i self = (Return cfg', self', t) ->
  uri cfg' = "https://yobit.net/tapi"
  /\ method cfg' = Some "POST"
  /\ json cfg' = true
  /\ proxy cfg' = proxyUrl self
  /\ qs cfg' = None
  /\ headers cfg' = Some [("key", key self); ("sign", _sign (body cfg') (secret self))]
  /\ exists params,
       obj_get "nonce" params = None
       /\ form cfg'
          = Some ((("method", P (Str (method_name i))) :: params)
                    ++ [("nonce", P (nonce self'))])%list.
Proof.
  intros H. apply invoke_returned in H.
  destruct H as (params & v & Hp & -> & ->).
  repeat split.
  exists params. split; [exact Hp|].
  cbn [signed_cfg form form_of private_cfg with_nonce nonce].
  f_equal. apply obj_set_absent. cbn. exact Hp.
Qed.

Lemma X3_wrapper_request_shape_witness :
  exists cfg' self',
    invoke (Call_OrderInfo (P (Num 7))) client_1000
    = (Return cfg', self',
       [ NonceUpdateCalled (Num 1000); NonceStored (Num 1001);
         ConsoleLog [Str "------------------NONCE IS "; Num 1001;
                     Str "method=OrderInfo&order_id=7"];
         Signed "method=OrderInfo&order_id=7&nonce=1001" "s";
         Rp cfg' ])
    /\ uri cfg' = "https://yobit.net/tapi"
    /\ method cfg' = Some "POST"
    /\ json cfg' = true
    /\ proxy cfg' = proxyUrl client_1000
    /\ qs cfg' = None
    /\ headers cfg'
       = Some [("key", key client_1000);
               ("sign", _sign (body cfg') (secret client_1000))]
    /\ exists params,
         obj_get "nonce" params = None
         /\ form cfg'
            = Some ((("method", P (Str "OrderInfo")) :: params)
                      ++ [("nonce", P (nonce self'))])%list.
Proof.
  pose proof (_request_resolved client_1000
                (private_cfg [("method", P (Str "OrderInfo")); ("order_id", P (Num 7))])
                default_nonceUpdateFn (Num 1001) eq_refl eq_refl) as E.
  eexists. eexists. split; [exact E|].
  exact (X3_wrapper_request_shape (Call_OrderInfo (P (Num 7))) _ _ _ _ E).
Defined.

(** X4. The string a wrapper signs is, joined by [&]: [method=] and the
    name of the remote method, then the pieces of the parameters in the
    order the wrapper lists them, then [nonce=] and the stored nonce. *)
Theorem X4_signed_body_layout
        (i : invocation) (self self' : instance) (cfg' : Cfg) (t : list event) :
  invoke i self = (Return cfg', self', t) ->
  exists params,
    form cfg' = Some ((("method", P (Str (method_name i))) :: params)
                        ++ [("nonce", P (nonce self'))])%list
    /\ body cfg'
       = String.concat "&"
           (("method=" ++ method_name i)
              :: (flat_map pieces params
                  ++ [("nonce=" ++ Querystring.escape
                                     (Querystring.stringifyPrimitive (nonce self')))%string
                     ])%list)
    /\ In (Signed (body cfg') (secret self)) t.
Proof.
  intros H.
  assert (Hsig : In (Signed (body cfg') (secret self)) t).
  { destruct (invoke_cases i self) as [(params & Hp & E)|E];
      rewrite E in H; [|discriminate].
    apply _request_inv in H. destruct H as (f & v & _ & _ & -> & _ & ->).
    cbn. auto. }
  apply invoke_returned in H. destruct H as (params & v & Hp & -> & ->).
  exists params.
  assert (Hform : form (signed_cfg self v
                          (private_cfg (("method", P (Str (method_name i))) :: params)))
                  = Some ((("method", P (Str (method_name i))) :: params)
                            ++ [("nonce", P v)])%list).
  { cbn [signed_cfg form form_of private_cfg]. f_equal.
    apply obj_set_absent. cbn. exact Hp. }
  split; [exact Hform|]. split; [|exact Hsig].
  unfold body. rewrite Hform, stringify_concat.
  rewrite flat_map_app. cbn [flat_map pieces fst snd app].
  cbn [Querystring.stringifyPrimitive]. rewrite method_name_escape.
  reflexivity.
Qed.

Lemma X4_signed_body_layout_witness :
  exists cfg' self' t params,
    invoke (Call_WithdrawCoinsToAddress (P (Str "BTC")) (P (Num 2)) (P (Str "a b&c")))
           client_1000 = (Return cfg', self', t)
    /\ form cfg' = Some ((("method", P (Str "WithdrawCoinsToAddress")) :: params)
                           ++ [("nonce", P (nonce self'))])%list
    /\ body cfg'
       = String.concat "&"
           (("method=" ++ "WithdrawCoinsToAddress")
              :: (flat_map pieces params
                  ++ [("nonce=" ++ Querystring.escape
                                     (Querystring.stringifyPrimitive (nonce self')))%string
                     ])%list)
    /\ In (Signed (body cfg') (secret client_1000)) t
    /\ body cfg'
       = "method=WithdrawCoinsToAddress&coinName=BTC&amount=2&address=a%20b%26c&nonce=1001".
Proof.
  pose proof (_request_resolved client_1000
                (private_cfg [("method", P (Str "WithdrawCoinsToAddress"));
                              ("coinName", P (Str "BTC"));
                              ("amount", P (Num 2));
                              ("address", P (Str "a b&c"))])
                default_nonceUpdateFn (Num 1001) eq_refl eq_refl) as E.
  destruct (X4_signed_body_layout
              (Call_WithdrawCoinsToAddress (P (Str "BTC")) (P (Num 2)) (P (Str "a b&c")))
              _ _ _ _ E) as (params & Hf & Hb & Hs).
  eexists. eexists. eexists. exists params.
  split; [exact E|]. split; [exact Hf|]. split; [exact Hb|]. split; [exact Hs|].
  vm_compute. reflexivity.
Defined.

(* ================================================================== *)
(** ** Arguments that are refused *)

(** X5. A pair that is neither a string nor an array makes [Trade] and
    [ActiveOrders] throw a TypeError before the policy is called: the
    nonce is not consumed and nothing is sent.  [TradeHistory(null)] does
    the same, and so do the public [ticker], [depth] and [trades]. *)
Theorem X5_refused_arguments_consume_no_nonce
        (self : instance) (p : prim) (type rate amount limit : value) :
  is_string p = false ->
  Trade (P p) type rate amount self = (Throw TypeError, self, [])
  /\ ActiveOrders (P p) self = (Throw TypeError, self, [])
  /\ TradeHistory ArgNull self = (Throw TypeError, self, [])
  /\ ticker (P p) = Throw TypeError
  /\ depth (P p) limit = Throw TypeError
  /\ trades (P p) = Throw TypeError.
Proof.
  intros Hp.
  assert (E : _formatPairs (P p) = Throw TypeError)
    by (destruct p; try reflexivity; discriminate).
  unfold Trade, ActiveOrders, ticker, depth, trades, bind, lift.
  rewrite E. repeat split.
Qed.

Lemma X5_refused_arguments_consume_no_nonce_witness :
  Trade (P Undefined) (P (Str "buy")) (P (Num 1)) (P (Num 1)) client_1000
    = (Throw TypeError, client_1000, [])
  /\ ActiveOrders (P Undefined) client_1000 = (Throw TypeError, client_1000, [])
  /\ TradeHistory ArgNull client_1000 = (Throw TypeError, client_1000, [])
  /\ ticker (P Undefined) = Throw TypeError
  /\ depth (P Undefined) (P Undefined) = Throw TypeError
  /\ trades (P Undefined) = Throw TypeError.
Proof.
  exact (X5_refused_arguments_consume_no_nonce client_1000 Undefined
           (P (Str "buy")) (P (Num 1)) (P (Num 1)) (P Undefined) eq_refl).
Defined.

(* ================================================================== *)
(** ** Normalizing pairs *)

Lemma toLowerCase_app (a b : string) :
  toLowerCase (a ++ b) = toLowerCase a ++ toLowerCase b.
Proof. induction a as [|c a IH]; simpl; [reflexivity | now rewrite IH]. Qed.

Lemma toLowerCase_concat_dash (l : list string) :
  toLowerCase (String.concat "-" l) = String.concat "-" (map toLowerCase l).
Proof.
  induction l as [|x [|y r] IH]; [reflexivity | reflexivity |].
  change (String.concat "-" (x :: y :: r)) with (x ++ "-" ++ String.concat "-" (y :: r)).
  rewrite !toLowerCase_app, IH. reflexivity.
Qed.

Lemma lower_ascii_idempotent (c : ascii) : lower_ascii (lower_ascii c) = lower_ascii c.
Proof. apply lower_ascii_other, lower_ascii_not_upper. Qed.

Lemma toLowerCase_idempotent (s : string) : toLowerCase (toLowerCase s) = toLowerCase s.
Proof.
  induction s as [|c r IH]; simpl; [reflexivity|].
  now rewrite lower_ascii_idempotent, IH.
Qed.

Lemma toLowerCase_no_upper (s : string) :
  all_chars (fun c => negb (is_upper c)) (toLowerCase s) = true.
Proof.
  induction s as [|c r IH]; simpl; [reflexivity|].
  now rewrite lower_ascii_not_upper, IH.
Qed.

(** X6. Normalizing an array of pair names is normalizing each name and
    joining the results with [-]: the separator is never altered and the
    names keep their order. *)
Theorem X6_formatPairs_elementwise (l : list string) :
  _formatPairs (Arr (map Str l)) = Return (String.concat "-" (map toLowerCase l))
  /\ Forall2 (fun x y => _formatPairs (P (Str x)) = Return y) l (map toLowerCase l).
Proof.
  split.
  - unfold _formatPairs, join. rewrite map_map. cbn [join_elem to_string].
    rewrite map_id. now rewrite toLowerCase_concat_dash.
  - induction l as [|x r IH]; constructor; [reflexivity | exact IH].
Qed.

(** X7. What the normalizer returns is a fixed point of it: it holds no
    upper-case letter, and normalizing it again returns it unchanged. *)
Theorem X7_formatPairs_idempotent (pairs : value) (p : string) :
  _formatPairs pairs = Return p ->
  _formatPairs (P (Str p)) = Return p
  /\ all_chars (fun c => negb (is_upper c)) p = true.
Proof.
  intros H.
  assert (exists s, p = toLowerCase s) as [s ->].
  { destruct pairs as [[]|l]; inversion H; eauto. }
  split.
  - cbn. now rewrite toLowerCase_idempotent.
  - apply toLowerCase_no_upper.
Qed.

Lemma X7_formatPairs_idempotent_witness :
  _formatPairs (Arr [Str "BTC_USD"; Str "LTC_BTC"]) = Return "btc_usd-ltc_btc"
  /\ _formatPairs (P (Str "btc_usd-ltc_btc")) = Return "btc_usd-ltc_btc"
  /\ all_chars (fun c => negb (is_upper c)) "btc_usd-ltc_btc" = true.
Proof.
  split; [reflexivity|].
  exact (X7_formatPairs_idempotent (Arr [Str "BTC_USD"; Str "LTC_BTC"])
           "btc_usd-ltc_btc" eq_refl).
Defined.

(* ================================================================== *)
(** ** Any policy, call after call *)

Lemma in_sequence_policy (g : prim -> prim) f (cfgs : list Cfg) :
  (forall n, f n = Return (g n)) ->
  forall self : instance,
    nonceUpdateFn self = Fn f ->
    exists rs self' t,
      in_sequence (map _request cfgs) self = (Return rs, self', t)
      /\ map body_nonce rs
         = map (fun v => Some (P v)) (iterates g (nonce self) (List.length cfgs))
      /\ nonce self' = Nat.iter (List.length cfgs) g (nonce self)
      /\ nonceUpdateFn self' = Fn f.
Proof.
  intros Hg. induction cfgs as [|c r IH]; intros self Hf.
  - exists [], self, []. cbn. auto.
  - pose proof (_request_resolved self c f (g (nonce self)) Hf (Hg _)) as E.
    destruct (IH (with_nonce self (g (nonce self))) Hf)
      as (rs & self' & t & Er & Hm & Hn & Hf').
    eexists. eexists. eexists.
    cbn [map in_sequence List.length iterates]. unfold bind at 1. rewrite E.
    unfold bind at 1. rewrite Er. cbn [ret].
    split; [reflexivity|].
    cbn [map]. rewrite body_nonce_signed.
    cbn [with_nonce nonce] in Hm, Hn. rewrite Hm.
    split; [reflexivity|]. split; [|exact Hf'].
    rewrite Hn. symmetry. apply Nat.iter_succ_r.
Qed.

(** X8. Whatever the policy computes, say [g], [N] private requests made
    one after the other all succeed and carry [g n], [g (g n)], ... from
    the stored nonce [n]: each call feeds the policy the value the call
    before it stored.  The nonce left in the instance is the last one sent. *)
Theorem X8_sequential_nonces_iterate_policy
        (self : instance) (g : prim -> prim) f (cfgs : list Cfg) :
  nonceUpdateFn self = Fn f ->
  (forall n, f n = Return (g n)) ->
  exists rs self' t,
    in_sequence (map _request cfgs) self = (Return rs, self', t)
    /\ map body_nonce rs
       = map (fun v => Some (P v)) (iterates g (nonce self) (List.length cfgs))
    /\ nonce self' = Nat.iter (List.length cfgs) g (nonce self).
Proof.
  intros Hf Hg.
  destruct (in_sequence_policy g f cfgs Hg self Hf) as (rs & self' & t & E & Hm & Hn & _).
  exists rs, self', t. auto.
Qed.

Lemma X8_sequential_nonces_iterate_policy_witness :
  exists rs self' t,
    in_sequence (map _request [cancel_cfg 42; cancel_cfg 43])
                (Instance "k" "s" Undefined (Num 10)
                          (Fn (fun n => Return (add n (Num 5)))))
      = (Return rs, self', t)
    /\ map body_nonce rs = [Some (P (Num 15)); Some (P (Num 20))]
    /\ nonce self' = Num 20.
Proof.
  exact (X8_sequential_nonces_iterate_policy
           (Instance "k" "s" Undefined (Num 10) (Fn (fun n => Return (add n (Num 5)))))
           (fun n => add n (Num 5)) (fun n => Return (add n (Num 5)))
           [cancel_cfg 42; cancel_cfg 43] eq_refl (fun n => eq_refl)).
Defined.

(* ================================================================== *)
(** ** Every schedule *)

Lemma before_await_any (cfg : Cfg) (self : instance) :
  exists o t,
    _request_before_await cfg self
    = (Return (with_headers cfg (headers_of cfg), o), self, t)
    /\ (t = [] \/ t = [NonceUpdateCalled (nonce self)]).
Proof.
  unfold _request_before_await, bind, this, call.
  destruct (nonceUpdateFn self) as [x|f]; cbn; eauto.
Qed.

Lemma after_await_any (cfg : Cfg) (v : prim) (self : instance) :
  _request_after_await (cfg, Return v) self =
  (Return (signed_cfg self v cfg), with_nonce self v,
   [ NonceStored v;
     ConsoleLog [Str "------------------NONCE IS "; v;
                 Str (Querystring.stringify (form cfg))];
     Signed (Querystring.stringify (form (signed_cfg self v cfg))) (secret self);
     Rp (signed_cfg self v cfg) ]).
Proof.
  unfold _request_after_await, bind, this, lift. cbn.
  destruct self as [k s px n fn]; cbn.
  unfold signed_cfg, with_nonce, form_of, headers_of; cbn.
  destruct (form cfg); destruct (headers cfg); destruct (truthy (proxy cfg)); reflexivity.
Qed.

Lemma signed_cfg_signed_for (self : instance) (v : prim) (cfg : Cfg) :
  signed_for self (signed_cfg self v cfg).
Proof.
  unfold signed_for, header, body. cbn [signed_cfg headers_of headers form json].
  repeat split.
  - rewrite obj_get_set_other by discriminate. apply obj_get_set_same.
  - apply obj_get_set_same.
Qed.

Lemma step_keeps_credentials (s0 : instance) (w : world) (a : action) :
  keeps_credentials s0 w -> keeps_credentials s0 (step w a).
Proof.
  intros (Hk & Hs & Hp & Hf & Ht). destruct w as [s p st tr]. cbn in Hk, Hs, Hp, Hf.
  unfold transmitted in Ht. cbn [trace] in Ht.
  destruct a as [id cfg | id]; unfold step; cbn [Async.self pending settled trace].
  - destruct (before_await_any cfg s) as (o & t & -> & Ht').
    unfold keeps_credentials, transmitted. cbn [Async.self trace].
    repeat split; auto.
    rewrite flat_map_app. apply Forall_app. split; [exact Ht|].
    destruct Ht' as [-> | ->]; constructor.
  - destruct (take id p) as [[[cfg [v|e]] rest]|].
    + rewrite after_await_any.
      unfold keeps_credentials, transmitted. cbn [Async.self trace with_nonce
        key secret proxyUrl nonceUpdateFn].
      repeat split; auto.
      rewrite flat_map_app. apply Forall_app. split; [exact Ht|].
      cbn. constructor; [|constructor].
      destruct (signed_cfg_signed_for s v cfg) as (H1 & H2 & H3).
      unfold signed_for. rewrite <- Hk, <- Hs. auto.
    + cbn. unfold keeps_credentials, transmitted. cbn [Async.self trace].
      repeat split; auto. now rewrite app_nil_r.
    + unfold keeps_credentials, transmitted. cbn [Async.self trace].
      repeat split; auto.
Qed.

Lemma run_keeps_credentials (s0 : instance) (schedule : list action) (w : world) :
  keeps_credentials s0 w -> keeps_credentials s0 (run schedule w).
Proof.
  revert w. induction schedule as [|a r IH]; intros w H; [exact H|].
  cbn [run fold_left]. apply IH. now apply step_keeps_credentials.
Qed.

(** X9. Under every schedule of calls made and resumed on an instance, in
    any order and with any policy, the key, the secret, the proxy and the
    policy of the instance stay what they were, and every request handed
    to [rp] carries that key and the signature of its own body under that
    secret. *)
Theorem X9_every_schedule_keeps_credentials (s0 : instance) (schedule : list action) :
  key (Async.self (run schedule (initial s0))) = key s0
  /\ secret (Async.self (run schedule (initial s0))) = secret s0
  /\ proxyUrl (Async.self (run schedule (initial s0))) = proxyUrl s0
  /\ nonceUpdateFn (Async.self (run schedule (initial s0))) = nonceUpdateFn s0
  /\ Forall (fun c => header "key" c = Some (key s0)
                      /\ header "sign" c = Some (_sign (body c) (secret s0))
                      /\ json c = true)
            (transmitted (run schedule (initial s0))).
Proof.
  apply (run_keeps_credentials s0 schedule (initial s0)).
  unfold keeps_credentials, initial, transmitted. cbn. repeat split; auto.
Qed.

(* ================================================================== *)
(** ** Any number of calls in flight *)

Lemma step_Resume_head s (k : nat) (cfg : Cfg) v rest st tr :
  step (World s ((k, (cfg, Return v)) :: rest) st tr) (Resume k) =
  World (with_nonce s v) rest (st ++ [(k, Return (signed_cfg s v cfg))])
        (tr ++ [ NonceStored v;
                 ConsoleLog [Str "------------------NONCE IS "; v;
                             Str (Querystring.stringify (form cfg))];
                 Signed (Querystring.stringify (form (signed_cfg s v cfg))) (secret s);
                 Rp (signed_cfg s v cfg) ]).
Proof.
  unfold step. cbn [pending Async.self settled trace take].
  now rewrite Nat.eqb_refl, after_await_any.
Qed.

Lemma stateful_run_app b (l1 l2 : list action) (w : Stateful.world) :
  Stateful.run b (l1 ++ l2) w = Stateful.run b l2 (Stateful.run b l1 w).
Proof. unfold Stateful.run. apply fold_left_app. Qed.

Lemma policy_arguments_app (t1 t2 : list event) :
  Stateful.policy_arguments (t1 ++ t2)
  = (Stateful.policy_arguments t1 ++ Stateful.policy_arguments t2)%list.
Proof. unfold Stateful.policy_arguments. apply flat_map_app. Qed.

Lemma policy_arguments_calls (x : prim) (n : nat) :
  Stateful.policy_arguments (repeat (NonceUpdateCalled x) n) = repeat x n.
Proof.
  induction n as [|n IH]; [reflexivity|].
  cbn [repeat]. change (Stateful.policy_arguments (NonceUpdateCalled x :: ?t))
    with (x :: Stateful.policy_arguments t).
  cbn [Stateful.policy_arguments flat_map app]. f_equal. exact IH.
Qed.

Lemma transmitted_calls s p st (x : prim) (n : nat) :
  transmitted (World s p st (repeat (NonceUpdateCalled x) n)) = [].
Proof.
  unfold transmitted. cbn [trace].
  induction n as [|n IH]; [reflexivity | exact IH].
Qed.

(** The calls of a burst, made: each invocation of the policy is given the
    nonce stored before the burst. *)
Lemma stateful_run_starts b (g : nat -> prim) (cfgs : list Cfg) :
  forall (first : nat) s p st tr,
    (forall k, (first <= k < first + List.length cfgs)%nat ->
               b k (nonce s) = Return (g k)) ->
    exists s',
      Stateful.run b (starts first cfgs) (Stateful.World (World s p st tr) first)
      = Stateful.World
          (World s' (p ++ Stateful.pending_by first cfgs g) st
                 (tr ++ repeat (NonceUpdateCalled (nonce s)) (List.length cfgs)))
          (first + List.length cfgs)
      /\ nonce s' = nonce s.
Proof.
  induction cfgs as [|c r IH]; intros first s p st tr Hb.
  - exists s. cbn. now rewrite !app_nil_r, Nat.add_0_r.
  - cbn [starts Stateful.run fold_left]. rewrite stateful_step_Start.
    rewrite (Hb first) by (cbn [List.length]; lia).
    destruct (IH (S first) (Stateful.with_policy s (Fn (b first)))
                 (p ++ [(first, (with_headers c (headers_of c), Return (g first)))])%list
                 st (tr ++ [NonceUpdateCalled (nonce s)])%list) as (s' & E & Hn).
    { intros k Hk. cbn [Stateful.with_policy nonce]. apply Hb.
      cbn [List.length]. lia. }
    exists s'. split; [|exact Hn].
    unfold Stateful.run in E. rewrite E.
    cbn [Stateful.pending_by List.length repeat Stateful.with_policy nonce].
    rewrite <- !app_assoc. cbn [app]. f_equal. lia.
Qed.

(** The calls of a burst, resumed in the order they were made: the policy
    is not invoked again, and request [k] carries [g k]. *)
Lemma stateful_run_resumes b (g : nat -> prim) (cfgs : list Cfg) :
  forall (first : nat) s st tr (j : nat) (w : Stateful.world),
    w = Stateful.run b (resumes first (List.length cfgs))
          (Stateful.World (World s (Stateful.pending_by first cfgs g) st tr) j) ->
    pending (Stateful.inner w) = []
    /\ map body_nonce (transmitted (Stateful.inner w))
       = (map body_nonce (transmitted (World s [] [] tr))
          ++ map (fun k => Some (P (g k))) (seq first (List.length cfgs)))%list
    /\ Stateful.policy_arguments (trace (Stateful.inner w))
       = Stateful.policy_arguments tr
    /\ (cfgs <> [] ->
        nonce (Async.self (Stateful.inner w)) = g (first + List.length cfgs - 1)%nat).
Proof.
  induction cfgs as [|c r IH]; intros first s st tr j w ->.
  - cbn. rewrite app_nil_r. repeat split. congruence.
  - cbn [resumes List.length Stateful.pending_by Stateful.run fold_left].
    rewrite stateful_step_Resume, step_Resume_head.
    destruct (IH (S first) (with_nonce s (g first))
                 (st ++ [(first, Return (signed_cfg s (g first)
                                           (with_headers c (headers_of c))))])%list
                 (tr ++ [ NonceStored (g first);
                          ConsoleLog [Str "------------------NONCE IS "; g first;
                                      Str (Querystring.stringify
                                             (form (with_headers c (headers_of c))))];
                          Signed (Querystring.stringify
                                    (form (signed_cfg s (g first)
                                             (with_headers c (headers_of c)))))
                                 (secret s);
                          Rp (signed_cfg s (g first)
                                (with_headers c (headers_of c))) ])%list
                 j _ eq_refl) as (H1 & H2 & H3 & H4).
    unfold Stateful.run in H1, H2, H3, H4.
    split; [exact H1|]. split; [|split].
    + rewrite H2. unfold transmitted. cbn [trace].
      rewrite flat_map_app, map_app. cbn [flat_map map app seq].
      rewrite body_nonce_signed, <- app_assoc. reflexivity.
    + rewrite H3, policy_arguments_app. cbn. now rewrite app_nil_r.
    + intros _. destruct r as [|c' r'].
      * cbn. f_equal. lia.
      * rewrite H4 by discriminate. f_equal. cbn [List.length]. lia.
Qed.

Lemma step_keeps_policy (w : world) (a : action) :
  nonceUpdateFn (Async.self (step w a)) = nonceUpdateFn (Async.self w).
Proof.
  destruct w as [s p st tr].
  destruct a as [id cfg | id]; unfold step; cbn [Async.self pending settled trace].
  - destruct (before_await_any cfg s) as (o & t & -> & _). reflexivity.
  - destruct (take id p) as [[[cfg [v|e]] rest]|]; [|reflexivity|reflexivity].
    rewrite after_await_any. reflexivity.
Qed.

(** A policy without memory: the schedule runs as in [Async]. *)
Lemma stateful_run_function_policy f (schedule : list action) :
  forall (w : world) (k : nat),
    nonceUpdateFn (Async.self w) = Fn f ->
    Stateful.inner (Stateful.run (fun _ => f) schedule (Stateful.World w k))
    = run schedule w.
Proof.
  induction schedule as [|a r IH]; intros w k Hf; [reflexivity|].
  cbn [Stateful.run run fold_left].
  assert (Hstep : exists k', Stateful.step (fun _ => f) (Stateful.World w k) a
                             = Stateful.World (step w a) k').
  { destruct a as [id cfg | id].
    - exists (S k). unfold Stateful.step. cbn [Stateful.inner Stateful.invocations].
      destruct w as [s p st tr]. cbn [Async.self pending settled trace] in *.
      destruct s as [ky sc px n fn]. cbn in Hf. subst fn. reflexivity.
    - exists k. reflexivity. }
  destruct Hstep as (k' & ->).
  apply IH. now rewrite step_keeps_policy.
Qed.

(** X10. Any number of calls made back to back, before any of them is
    resumed, all read the same stored nonce and give it to the policy.
    Each request carries what its own invocation of the policy returned,
    and the instance ends with what the last one returned.  When all the
    invocations return the same value, as with a policy whose answer
    depends on the nonce alone, all the requests carry that one nonce. *)
Theorem X10_burst_reads_one_nonce
        (self : instance) (behaviour : nat -> prim -> outcome prim)
        (cfgs : list Cfg) (g : nat -> prim) :
  (forall k, (k < List.length cfgs)%nat -> behaviour k (nonce self) = Return (g k)) ->
  Stateful.policy_arguments
    (trace (Stateful.inner (Stateful.run behaviour (burst cfgs) (Stateful.initial self))))
    = repeat (nonce self) (List.length cfgs)
  /\ map body_nonce
       (transmitted (Stateful.inner
                       (Stateful.run behaviour (burst cfgs) (Stateful.initial self))))
     = map (fun k => Some (P (g k))) (seq 0 (List.length cfgs))
  /\ pending (Stateful.inner
                (Stateful.run behaviour (burst cfgs) (Stateful.initial self))) = []
  /\ (cfgs <> [] ->
      nonce (Async.self (Stateful.inner
                           (Stateful.run behaviour (burst cfgs)
                                         (Stateful.initial self))))
      = g (List.length cfgs - 1)%nat)
  /\ (forall v, (forall k, (k < List.length cfgs)%nat -> g k = v) ->
      map body_nonce
        (transmitted (Stateful.inner
                        (Stateful.run behaviour (burst cfgs) (Stateful.initial self))))
      = repeat (Some (P v)) (List.length cfgs)).
Proof.
  intros Hb.
  destruct (stateful_run_starts behaviour g cfgs 0 self [] [] []) as (s' & E & Hn).
  { intros k Hk. apply Hb. lia. }
  unfold burst, Stateful.initial, initial. rewrite stateful_run_app, E.
  cbn [app Nat.add].
  destruct (stateful_run_resumes behaviour g cfgs 0 s' []
              (repeat (NonceUpdateCalled (nonce self)) (List.length cfgs))
              (List.length cfgs) _ eq_refl) as (H1 & H2 & H3 & H4).
  rewrite transmitted_calls in H2. cbn [map app] in H2.
  split; [rewrite H3; apply policy_arguments_calls|].
  split; [exact H2|]. split; [exact H1|]. split; [exact H4|].
  intros v Hv. rewrite H2. clear - Hv.
  assert (Hgen : forall n first,
             (forall k, (first <= k < first + n)%nat -> g k = v) ->
             map (fun k => Some (P (g k))) (seq first n) = repeat (Some (P v)) n).
  { induction n as [|n IH]; intros first H; [reflexivity|].
    cbn [seq map repeat]. rewrite (H first) by lia. f_equal.
    apply IH. intros k Hk. apply H. lia. }
  apply Hgen. intros k Hk. apply Hv. lia.
Qed.

Lemma X10_burst_reads_one_nonce_witness :
  Stateful.policy_arguments
    (trace (Stateful.inner
              (Stateful.run Stateful.counting
                            (burst [cancel_cfg 42; cancel_cfg 43; cancel_cfg 44])
                            (Stateful.initial client_1000))))
    = [Num 1000; Num 1000; Num 1000]
  /\ map body_nonce
       (transmitted (Stateful.inner
                       (Stateful.run Stateful.counting
                                     (burst [cancel_cfg 42; cancel_cfg 43; cancel_cfg 44])
                                     (Stateful.initial client_1000))))
     = [Some (P (Num 1001)); Some (P (Num 1002)); Some (P (Num 1003))]
  /\ pending (Stateful.inner
                (Stateful.run Stateful.counting
                              (burst [cancel_cfg 42; cancel_cfg 43; cancel_cfg 44])
                              (Stateful.initial client_1000))) = []
  /\ nonce (Async.self (Stateful.inner
                          (Stateful.run Stateful.counting
                                        (burst [cancel_cfg 42; cancel_cfg 43; cancel_cfg 44])
                                        (Stateful.initial client_1000))))
     = Num 1003.
Proof.
  destruct (X10_burst_reads_one_nonce client_1000 Stateful.counting
              [cancel_cfg 42; cancel_cfg 43; cancel_cfg 44]
              (fun k => Num (1001 + Z.of_nat k)))
    as (H1 & H2 & H3 & H4 & _).
  { intros k Hk. do 3 (destruct k as [|k]; [reflexivity|]). cbn in Hk. lia. }
  split; [exact H1|]. split; [exact H2|]. split; [exact H3|].
  exact (H4 ltac:(discriminate)).
Defined.

(* ================================================================== *)
(** ** From construction to the first request *)

(** X11. A client made without an initial nonce, at a clock of [now]
    milliseconds, sends [floor(now / 1000) + 1] as the nonce of its first
    private request, and keeps it as its stored nonce. *)
Theorem X11_first_nonce_from_clock
        (key secret : string) (px : prim) (now : Z) (cfg : Cfg) :
  0 <= now < 2 ^ 53 ->
  exists self cfg' self' t,
    constructor key secret (ArgObject (Options Undefined (NotFn Undefined) px)) now
      = Return self
    /\ _request cfg self = (Return cfg', self', t)
    /\ body_nonce cfg' = Some (P (Num (now / 1000 + 1)))
    /\ nonce self' = Num (now / 1000 + 1).
Proof.
  intros Hnow.
  assert (Hq : 0 <= now / 1000 <= now).
  { split; [apply Z.div_pos; lia | apply Z.div_le_upper_bound; lia]. }
  assert (Hstep : default_nonceUpdateFn (Num (now / 1000)) = Return (Num (now / 1000 + 1))).
  { apply default_nonceUpdateFn_exact; lia. }
  exists (Instance key secret px (Num (now / 1000)) (Fn default_nonceUpdateFn)).
  eexists. eexists. eexists.
  split; [reflexivity|].
  split;
    [apply (_request_resolved
              (Instance key secret px (Num (now / 1000)) (Fn default_nonceUpdateFn))
              cfg default_nonceUpdateFn _ eq_refl Hstep)|].
  split; [apply body_nonce_signed | reflexivity].
Qed.

Lemma X11_first_nonce_from_clock_witness :
  exists self cfg' self' t,
    constructor "k" "s" (ArgObject (Options Undefined (NotFn Undefined) Undefined))
                1700000000123 = Return self
    /\ _request (cancel_cfg 42) self = (Return cfg', self', t)
    /\ body_nonce cfg' = Some (P (Num 1700000001))
    /\ nonce self' = Num 1700000001.
Proof.
  exact (X11_first_nonce_from_clock "k" "s" Undefined 1700000000123 (cancel_cfg 42)
           ltac:(split; [vm_compute; discriminate | vm_compute; reflexivity])).
Defined.

(* ================================================================== *)
(** ** What [_request] leaves of the configuration it is given *)

Lemma obj_set_keys {V} (k : string) (v : V) (o : obj V) :
  map fst (obj_set k v o)
  = if obj_has k o then map fst o else (map fst o ++ [k])%list.
Proof.
  unfold obj_has. induction o as [|[k' v'] r IH]; [reflexivity|].
  cbn [obj_set obj_get]. destruct (String.eqb k k'); [reflexivity|].
  cbn [map fst]. rewrite IH. destruct (obj_get k r); reflexivity.
Qed.

(** X12. A private call changes nothing of the caller's configuration but
    what it is there to set: the target, the verb and the query string are
    as given; every form parameter other than [nonce] and every header
    other than [key] and [sign] keeps its value; the keys of the form keep
    their order, a [nonce] already there keeps its place and a new one goes
    last; a proxy given for the call wins over the proxy of the instance. *)
Theorem X12_request_keeps_the_rest
        (self self' : instance) (cfg cfg' : Cfg) (t : list event) :
  _request cfg self = (Return cfg', self', t) ->
  uri cfg' = uri cfg
  /\ method cfg' = method cfg
  /\ qs cfg' = qs cfg
  /\ json cfg' = true
  /\ proxy cfg' = (if truthy (proxy cfg) then proxy cfg else proxyUrl self)
  /\ (forall k, k <> "nonce" -> obj_get k (form_of cfg') = obj_get k (form_of cfg))
  /\ (forall h, h <> "key" -> h <> "sign" -> header h cfg' = header h cfg)
  /\ map fst (form_of cfg')
     = (if obj_has "nonce" (form_of cfg) then map fst (form_of cfg)
        else (map fst (form_of cfg) ++ ["nonce"])%list).
Proof.
  intros H. apply _request_inv in H. destruct H as (f & v & _ & _ & -> & _ & _).
  cbn [signed_cfg uri method qs json proxy form_of form].
  repeat split.
  - destruct (truthy (proxy cfg)); reflexivity.
  - intros k Hk. apply obj_get_set_other. congruence.
  - intros h Hk Hs. unfold header. cbn [signed_cfg headers_of headers].
    rewrite !obj_get_set_other by congruence. reflexivity.
  - apply obj_set_keys.
Qed.

Lemma X12_request_keeps_the_rest_witness :
  exists cfg' self' t,
    _request (MkCfg "https://yobit.net/tapi" (Some "POST")
                    (Some [("nonce", P (Num 5)); ("method", P (Str "getInfo"))])
                    (Some [("x-trace", "abc"); ("sign", "forged")])
                    None (Str "http://proxy:8080") false)
             client_1000 = (Return cfg', self', t)
    /\ form cfg' = Some [("nonce", P (Num 1001)); ("method", P (Str "getInfo"))]
    /\ body cfg' = "nonce=1001&method=getInfo"
    /\ header "x-trace" cfg' = Some "abc"
    /\ proxy cfg' = Str "http://proxy:8080"
    /\ map fst (form_of cfg') = ["nonce"; "method"].
Proof.
  pose proof (_request_resolved client_1000
                (MkCfg "https://yobit.net/tapi" (Some "POST")
                       (Some [("nonce", P (Num 5)); ("method", P (Str "getInfo"))])
                       (Some [("x-trace", "abc"); ("sign", "forged")])
                       None (Str "http://proxy:8080") false)
                default_nonceUpdateFn (Num 1001) eq_refl eq_refl) as E.
  destruct (X12_request_keeps_the_rest _ _ _ _ _ E)
    as (_ & _ & _ & _ & Hproxy & _ & Hhdr & Hkeys).
  eexists. eexists. eexists.
  split; [exact E|].
  split; [reflexivity|]. split; [reflexivity|].
  split; [exact (Hhdr "x-trace" ltac:(discriminate) ltac:(discriminate))|].
  split; [exact Hproxy | exact Hkeys].
Defined.

(* ================================================================== *)
(** ** The shape of a signature *)

Lemma be_bytes_length (n : nat) (x : Z) : List.length (CryptoJS.be_bytes n x) = n.
Proof.
  revert x. induction n as [|n IH]; intros x; [reflexivity|].
  cbn [CryptoJS.be_bytes]. rewrite length_app, IH. cbn. lia.
Qed.

Lemma be_bytes_range (n : nat) (x : Z) :
  Forall (fun b => 0 <= b < 256) (CryptoJS.be_bytes n x).
Proof.
  revert x. induction n as [|n IH]; intros x; [constructor|].
  cbn [CryptoJS.be_bytes]. apply Forall_app. split; [apply IH|].
  constructor; [|constructor].
  change 255 with (Z.ones 8). rewrite Z.land_ones by lia.
  apply Z.mod_pos_bound. reflexivity.
Qed.

Lemma compress_length (h block : list Z) :
  List.length h = 8%nat -> List.length (CryptoJS.compress h block) = 8%nat.
Proof.
  intros Hh. unfold CryptoJS.compress.
  rewrite length_map, length_combine, Hh. reflexivity.
Qed.

Lemma fold_compress_length (blocks : list (list Z)) (h : list Z) :
  List.length h = 8%nat ->
  List.length (fold_left CryptoJS.compress blocks h) = 8%nat.
Proof.
  revert h. induction blocks as [|b r IH]; intros h Hh; [exact Hh|].
  cbn [fold_left]. apply IH. now apply compress_length.
Qed.

Lemma flat_map_be_bytes_length (ws : list Z) :
  List.length (flat_map (CryptoJS.be_bytes 8) ws) = (8 * List.length ws)%nat.
Proof.
  induction ws as [|w r IH]; [reflexivity|].
  cbn [flat_map]. rewrite length_app, be_bytes_length, IH. cbn [List.length]. lia.
Qed.

Lemma flat_map_be_bytes_range (ws : list Z) :
  Forall (fun b => 0 <= b < 256) (flat_map (CryptoJS.be_bytes 8) ws).
Proof.
  induction ws as [|w r IH]; [constructor|].
  cbn [flat_map]. apply Forall_app. split; [apply be_bytes_range | exact IH].
Qed.

Lemma sha512_length (msg : list Z) : List.length (CryptoJS.sha512 msg) = 64%nat.
Proof.
  unfold CryptoJS.sha512. rewrite flat_map_be_bytes_length, fold_compress_length;
    reflexivity.
Qed.

Lemma sha512_range (msg : list Z) :
  Forall (fun b => 0 <= b < 256) (CryptoJS.sha512 msg).
Proof. unfold CryptoJS.sha512. apply flat_map_be_bytes_range. Qed.

Lemma hex_length (bs : list Z) :
  String.length (CryptoJS.hex bs) = (2 * List.length bs)%nat.
Proof.
  induction bs as [|b r IH]; [reflexivity|].
  cbn [CryptoJS.hex String.length List.length]. rewrite IH. lia.
Qed.

Lemma hex_digit_lower (n : Z) :
  0 <= n < 16 -> is_hex_lower (CryptoJS.hex_digit n) = true.
Proof.
  intros H.
  assert (Hn : exists k : nat, (k < 16)%nat /\ n = Z.of_nat k).
  { exists (Z.to_nat n). split; lia. }
  destruct Hn as (k & Hk & ->).
  do 16 (destruct k as [|k]; [reflexivity|]). lia.
Qed.

Lemma hex_lower (bs : list Z) :
  Forall (fun b => 0 <= b < 256) bs ->
  all_chars is_hex_lower (CryptoJS.hex bs) = true.
Proof.
  induction 1 as [|b r Hb _ IH]; [reflexivity|].
  cbn [CryptoJS.hex all_chars]. rewrite IH, !hex_digit_lower; [reflexivity| |].
  - change 15 with (Z.ones 4). rewrite Z.land_ones by lia.
    apply Z.mod_pos_bound. reflexivity.
  - rewrite Z.shiftr_div_pow2 by lia. change (2 ^ 4) with 16.
    split; [apply Z.div_pos; lia | apply Z.div_lt_upper_bound; lia].
Qed.

(** X13. Whatever the message and the secret, [_sign] returns 128
    characters, all of them lower-case hexadecimal digits: the 64 bytes of
    the digest, two digits each. *)
Theorem X13_sign_is_128_hex_digits (message secret : string) :
  String.length (_sign message secret) = 128%nat
  /\ all_chars is_hex_lower (_sign message secret) = true.
Proof.
  unfold _sign, CryptoJS.HmacSHA512_toString, CryptoJS.hmac_sha512.
  split.
  - rewrite hex_length, sha512_length. reflexivity.
  - apply hex_lower, sha512_range.
Qed.

(* ================================================================== *)
(** ** Separators in the signed string *)

Lemma count_char_app (c : ascii) (a b : string) :
  count_char c (a ++ b) = (count_char c a + count_char c b)%nat.
Proof.
  induction a as [|x a IH]; [reflexivity|].
  cbn [append count_char]. rewrite IH. lia.
Qed.

Lemma escape_cons (c : ascii) (r : string) :
  Querystring.escape (String c r)
  = Querystring.escape (String c EmptyString) ++ Querystring.escape r.
Proof. cbn [Querystring.escape]. destruct (Querystring.no_escape c); reflexivity. Qed.

Lemma escape_char_no_separator (c : ascii) :
  count_char "&" (Querystring.escape (String c EmptyString)) = 0%nat
  /\ count_char "=" (Querystring.escape (String c EmptyString)) = 0%nat.
Proof. destruct c as [[] [] [] [] [] [] [] []]; split; vm_compute; reflexivity. Qed.

Lemma escape_no_separator (s : string) :
  count_char "&" (Querystring.escape s) = 0%nat
  /\ count_char "=" (Querystring.escape s) = 0%nat.
Proof.
  induction s as [|c r [IH1 IH2]]; [split; reflexivity|].
  rewrite escape_cons, !count_char_app, IH1, IH2.
  destruct (escape_char_no_separator c) as [-> ->]. split; reflexivity.
Qed.

Lemma piece_separators (kv : string * value) (x : string) :
  In x (pieces kv) -> count_char "&" x = 0%nat /\ count_char "=" x = 1%nat.
Proof.
  assert (H : forall k v,
             count_char "&" ((Querystring.escape k ++ "=") ++ Querystring.escape v) = 0%nat
             /\ count_char "=" ((Querystring.escape k ++ "=") ++ Querystring.escape v)
                = 1%nat).
  { intros k v. rewrite !count_char_app.
    destruct (escape_no_separator k) as [-> ->].
    destruct (escape_no_separator v) as [-> ->]. split; reflexivity. }
  destruct kv as [k [p|l]]; unfold pieces; cbn [fst snd].
  - intros [<-|[]]. apply H.
  - rewrite in_map_iff. intros [p [<- _]]. apply H.
Qed.

Lemma concat_count (c : ascii) (l : list string) (a : nat) :
  (forall x, In x l -> count_char c x = a) ->
  count_char c (String.concat "&" l)
  = (List.length l * a + Nat.pred (List.length l) * count_char c "&")%nat.
Proof.
  induction l as [|x [|y r] IH]; intros H.
  - reflexivity.
  - cbn [String.concat List.length Nat.pred]. rewrite (H x) by now left. lia.
  - change (String.concat "&" (x :: y :: r))
      with (x ++ "&" ++ String.concat "&" (y :: r)).
    rewrite !count_char_app, (H x) by now left.
    rewrite IH by (intros z Hz; apply H; now right).
    cbn [List.length Nat.pred]. lia.
Qed.

(** X14. In the string a private call signs, [&] occurs only between two
    fields and [=] only between a key and its value, whatever characters
    the keys and the values hold: with [n] fields there are [n - 1]
    occurrences of [&] and [n] of [=].  No parameter value can add a field
    to the body. *)
Theorem X14_separators_only_between_fields
        (self self' : instance) (cfg cfg' : Cfg) (t : list event) :
  _request cfg self = (Return cfg', self', t) ->
  count_char "&" (body cfg')
    = Nat.pred (List.length (flat_map pieces (form_of cfg')))
  /\ count_char "=" (body cfg') = List.length (flat_map pieces (form_of cfg')).
Proof.
  intros H. apply _request_inv in H. destruct H as (f & v & _ & _ & -> & _ & _).
  unfold body. cbn [signed_cfg form form_of]. rewrite stringify_concat.
  split.
  - rewrite (concat_count "&" _ 0).
    + change (count_char "&" "&") with 1%nat. lia.
    + intros x Hx. apply in_flat_map in Hx. destruct Hx as (kv & _ & Hx).
      now apply piece_separators in Hx.
  - rewrite (concat_count "=" _ 1).
    + change (count_char "=" "&") with 0%nat. lia.
    + intros x Hx. apply in_flat_map in Hx. destruct Hx as (kv & _ & Hx).
      now apply piece_separators in Hx.
Qed.

Lemma X14_separators_only_between_fields_witness :
  exists cfg' self' t,
    _request (private_cfg [("method", P (Str "RedeemYobicode"));
                           ("coupon", P (Str "X&nonce=1&method=getInfo"))])
             client_1000 = (Return cfg', self', t)
    /\ body cfg'
       = "method=RedeemYobicode&coupon=X%26nonce%3D1%26method%3DgetInfo&nonce=1001"
    /\ count_char "&" (body cfg')
       = Nat.pred (List.length (flat_map pieces (form_of cfg')))
    /\ count_char "=" (body cfg') = List.length (flat_map pieces (form_of cfg')).
Proof.
  pose proof (_request_resolved client_1000
                (private_cfg [("method", P (Str "RedeemYobicode"));
                              ("coupon", P (Str "X&nonce=1&method=getInfo"))])
                default_nonceUpdateFn (Num 1001) eq_refl eq_refl) as E.
  eexists. eexists. eexists.
  split; [exact E|]. split; [vm_compute; reflexivity|].
  exact (X14_separators_only_between_fields _ _ _ _ _ E).
Defined.

(* ================================================================== *)
(** ** One spelling of a pair, one request *)

Lemma formatPairs_normal (pairs : value) (p : string) :
  _formatPairs pairs = Return p -> _formatPairs (P (Str p)) = Return p.
Proof.
  intros H.
  assert (exists s, p = toLowerCase s) as [s ->].
  { destruct pairs as [[]|l]; inversion H; eauto. }
  cbn. now rewrite toLowerCase_idempotent.
Qed.

(** X15. The accessors and wrappers that take pairs make the same request
    for an array of names, for a string in any case, and for the
    normalized string itself: only the normalized form reaches the
    request. *)
Theorem X15_pairs_reach_requests_normalized
        (pairs : value) (p : string) (type rate amount limit : value)
        (self : instance) :
  _formatPairs pairs = Return p ->
  ticker pairs = ticker (P (Str p))
  /\ depth pairs limit = depth (P (Str p)) limit
  /\ trades pairs = trades (P (Str p))
  /\ Trade pairs type rate amount self = Trade (P (Str p)) type rate amount self
  /\ ActiveOrders pairs self = ActiveOrders (P (Str p)) self.
Proof.
  intros H. pose proof (formatPairs_normal _ _ H) as H'.
  unfold ticker, depth, trades, Trade, ActiveOrders, bind, lift.
  rewrite H, H'. repeat split.
Qed.

Lemma X15_pairs_reach_requests_normalized_witness :
  ticker (Arr [Str "BTC_USD"; Str "Ltc_Btc"]) = ticker (P (Str "btc_usd-ltc_btc"))
  /\ depth (Arr [Str "BTC_USD"; Str "Ltc_Btc"]) (P (Num 5))
     = depth (P (Str "btc_usd-ltc_btc")) (P (Num 5))
  /\ trades (Arr [Str "BTC_USD"; Str "Ltc_Btc"]) = trades (P (Str "btc_usd-ltc_btc"))
  /\ Trade (Arr [Str "BTC_USD"; Str "Ltc_Btc"]) (P (Str "buy")) (P (Num 1)) (P (Num 2))
           client_1000
     = Trade (P (Str "btc_usd-ltc_btc")) (P (Str "buy")) (P (Num 1)) (P (Num 2))
             client_1000
  /\ ActiveOrders (Arr [Str "BTC_USD"; Str "Ltc_Btc"]) client_1000
     = ActiveOrders (P (Str "btc_usd-ltc_btc")) client_1000.
Proof.
  exact (X15_pairs_reach_requests_normalized
           (Arr [Str "BTC_USD"; Str "Ltc_Btc"]) "btc_usd-ltc_btc"
           (P (Str "buy")) (P (Num 1)) (P (Num 2)) (P (Num 5)) client_1000 eq_refl).
Defined.

(* ================================================================== *)
(** ** Calls and requests under a schedule *)

Lemma take_length {A} (id : nat) (l : list (nat * A)) a rest :
  take id l = Some (a, rest) -> List.length l = S (List.length rest).
Proof.
  revert a rest. induction l as [|[i x] r IH]; intros a rest; [discriminate|].
  cbn [take]. destruct (Nat.eqb i id).
  - intros H. inversion H; subst. reflexivity.
  - destruct (take id r) as [[y r']|] eqn:E; [|discriminate].
    intros H. inversion H; subst. cbn [List.length]. f_equal.
    eapply IH. reflexivity.
Qed.

Lemma run_accounts (schedule : list action) :
  forall w : world,
    (List.length (settled (run schedule w)) + List.length (pending (run schedule w))
     = List.length (settled w) + List.length (pending w) + calls_made schedule)%nat
    /\ (List.length (transmitted (run schedule w))
        + List.length (filter has_returned (settled w))
        = List.length (transmitted w)
          + List.length (filter has_returned (settled (run schedule w))))%nat.
Proof.
  induction schedule as [|a r IH]; intros w.
  - cbn. unfold calls_made. cbn. lia.
  - cbn [run fold_left]. fold (run r (step w a)).
    destruct (IH (step w a)) as [H1 H2].
    assert (Hstep :
              (List.length (settled (step w a)) + List.length (pending (step w a))
               = List.length (settled w) + List.length (pending w)
                 + (if is_start a then 1 else 0))%nat
              /\ (List.length (transmitted (step w a))
                  + List.length (filter has_returned (settled w))
                  = List.length (transmitted w)
                    + List.length (filter has_returned (settled (step w a))))%nat).
    { destruct w as [s p st tr]. unfold transmitted.
      destruct a as [id cfg|id]; unfold step; cbn [Async.self pending settled trace is_start].
      - destruct (before_await_any cfg s) as (o & t & -> & Ht).
        cbn [Async.self pending settled trace].
        rewrite length_app, flat_map_app, length_app. cbn [List.length].
        destruct Ht as [-> | ->]; cbn; lia.
      - destruct (take id p) as [[[cfg [v|e]] rest]|] eqn:Et.
        + rewrite after_await_any. cbn [Async.self pending settled trace].
          apply take_length in Et.
          rewrite filter_app, !length_app, flat_map_app, length_app. cbn. lia.
        + cbn. apply take_length in Et.
          rewrite filter_app, !length_app, app_nil_r. cbn. lia.
        + cbn [Async.self pending settled trace]. lia. }
    destruct Hstep as [S1 S2].
    unfold calls_made in *. cbn [filter].
    destruct (is_start a); cbn [List.length]; lia.
Qed.

(** X16. Under every schedule each call made is either still pending or
    settled, once; and the requests handed to [rp] are exactly as many as
    the calls that returned: a call is never sent twice, and nothing is
    sent that no call asked for. *)
Theorem X16_one_request_per_returned_call (s0 : instance) (schedule : list action) :
  (List.length (settled (run schedule (initial s0)))
   + List.length (pending (run schedule (initial s0))) = calls_made schedule)%nat
  /\ List.length (transmitted (run schedule (initial s0)))
     = List.length (filter has_returned (settled (run schedule (initial s0))))
  /\ (List.length (transmitted (run schedule (initial s0))) <= calls_made schedule)%nat.
Proof.
  destruct (run_accounts schedule (initial s0)) as [H1 H2].
  cbn in H1, H2.
  pose proof (filter_length_le has_returned (settled (run schedule (initial s0)))) as Hle.
  repeat split; lia.
Qed.

(* ================================================================== *)
(** ** A call resumed late *)

(** X17. A call resumed after a later call has been made and resumed puts
    back the value it computed when it was made: of three calls scheduled
    so, the requests carry [v], [f v], [v] for a policy [f] and [v] its
    value at the stored nonce, and the instance ends with the nonce [v],
    the one it had before the third call. *)
Theorem X17_late_resume_puts_nonce_back
        (self : instance) (c1 c2 c3 : Cfg) f v v' :
  nonceUpdateFn self = Fn f ->
  f (nonce self) = Return v ->
  f v = Return v' ->
  map body_nonce (transmitted (run (overtaken c1 c2 c3) (initial self)))
    = [Some (P v); Some (P v'); Some (P v)]
  /\ nonce (Async.self (run (overtaken c1 c2 c3) (initial self))) = v
  /\ pending (run (overtaken c1 c2 c3) (initial self)) = [].
Proof.
  intros Hf Hv Hv'.
  unfold run, overtaken, initial. cbn [fold_left].
  rewrite (step_Start _ _ _ _ _ _ f Hf).
  rewrite (step_Start _ _ _ _ _ _ f Hf).
  rewrite Hv. cbn [app].
  erewrite step_Resume_resolved by reflexivity.
  rewrite (step_Start (with_nonce self v) _ _ _ _ _ f Hf).
  cbn [with_nonce nonce app]. rewrite Hv'.
  erewrite step_Resume_resolved by reflexivity.
  erewrite step_Resume_resolved by reflexivity.
  cbn. now rewrite !obj_get_set_same.
Qed.

Lemma X17_late_resume_puts_nonce_back_witness :
  map body_nonce
      (transmitted (run (overtaken (cancel_cfg 42) (cancel_cfg 43) (cancel_cfg 44))
                        (initial client_1000)))
    = [Some (P (Num 1001)); Some (P (Num 1002)); Some (P (Num 1001))]
  /\ nonce (Async.self (run (overtaken (cancel_cfg 42) (cancel_cfg 43) (cancel_cfg 44))
                            (initial client_1000))) = Num 1001
  /\ pending (run (overtaken (cancel_cfg 42) (cancel_cfg 43) (cancel_cfg 44))
                  (initial client_1000)) = [].
Proof.
  exact (X17_late_resume_puts_nonce_back client_1000
           (cancel_cfg 42) (cancel_cfg 43) (cancel_cfg 44)
           default_nonceUpdateFn (Num 1001) (Num 1002) eq_refl eq_refl eq_refl).
Defined.
